(** * market.py: EMA indicators, calendar-year partitions and the chart query

    A shallow embedding of [src/market.py]:

    - [TechnicalIndicator] adds one column [ema_<w>] per span
      [w] in [9, 12, 21, 30, 50, 80, 100, 200] to the price table, each being
      [data['close'].ewm(span=w).mean()];
    - [TimeSeriesSplit.split_by_intervals] stores, for every year of its list,
      the slice [data.loc['Y-01-01':'Y-12-31']] under the key ['Y_data'];
    - [display_candlestick] looks a year's slice up and builds a figure from
      its price columns and from the first five selected indicator columns.

    Cell values are binary64 floating-point numbers, the [float64] of the
    table's numeric columns, and arithmetic on them is IEEE arithmetic; the
    pandas operations the program calls ([ewm(...).mean()], label slicing of a
    [DatetimeIndex], column lookup and assignment) are written out with the
    defaults the program leaves in place. *)

From Stdlib Require Import ZArith Lia Sorted PrimFloat.
From stdpp Require Import gmap strings list pretty.

Local Open Scope Z_scope.

(** ** Exceptions and results *)

Inductive exn : Type :=
| KeyError (key : string)
| AttributeError (name : string)
| ValueError (msg : string)
| Unaligned (column : string).

Inductive result (A : Type) : Type :=
| Ok (a : A)
| Raise (e : exn).
Arguments Ok {A} a.
Arguments Raise {A} e.

Global Instance result_ret : MRet result := λ A a, Ok a.
Global Instance result_bind : MBind result := λ A B f r,
  match r with
  | Ok a => f a
  | Raise e => Raise e
  end.
Global Instance result_fmap : FMap result := λ A B f r,
  match r with
  | Ok a => Ok (f a)
  | Raise e => Raise e
  end.

Definition raises {A} (r : result A) : Prop := ∃ e, r = Raise e.

(** ** Timestamps

    A [DatetimeIndex] label, by its calendar fields; [nanosecond] is the whole
    sub-second part.  Timestamps compare field by field, most significant
    first. *)

Record Timestamp : Type := mkTimestamp {
  year : Z;
  month : Z;
  day : Z;
  hour : Z;
  minute : Z;
  second : Z;
  nanosecond : Z
}.

Global Instance Timestamp_eq_dec : EqDecision Timestamp.
Proof. solve_decision. Defined.

Definition valid_ts (t : Timestamp) : Prop :=
  1 ≤ month t ≤ 12 ∧ 1 ≤ day t ≤ 31 ∧ 0 ≤ hour t ≤ 23 ∧
  0 ≤ minute t ≤ 59 ∧ 0 ≤ second t ≤ 59 ∧ 0 ≤ nanosecond t ≤ 999999999.

Definition ts_fields (t : Timestamp) : list Z :=
  [year t; month t; day t; hour t; minute t; second t; nanosecond t].

Fixpoint lex_compare (a b : list Z) : comparison :=
  match a, b with
  | [], [] => Eq
  | [], _ :: _ => Lt
  | _ :: _, [] => Gt
  | x :: a', y :: b' =>
      match x ?= y with
      | Eq => lex_compare a' b'
      | c => c
      end
  end.

Definition ts_compare (a b : Timestamp) : comparison :=
  lex_compare (ts_fields a) (ts_fields b).

Definition ts_leb (a b : Timestamp) : bool :=
  match ts_compare a b with Gt => false | _ => true end.
Definition ts_ltb (a b : Timestamp) : bool :=
  match ts_compare a b with Lt => true | _ => false end.
Definition ts_eqb (a b : Timestamp) : bool :=
  match ts_compare a b with Eq => true | _ => false end.

Definition ts_le (a b : Timestamp) : Prop := ts_leb a b = true.

Global Instance ts_le_dec a b : Decision (ts_le a b).
Proof. unfold ts_le. apply _. Defined.

(** ** Series and data frames

    A frame is an index and named columns over it; a series is one column
    together with the index it is labelled by. *)

Record Series : Type := mkSeries {
  s_index : list Timestamp;
  s_values : list float
}.

Record DataFrame : Type := mkDataFrame {
  df_index : list Timestamp;
  df_columns : gmap string (list float)
}.

(** [df[col]] *)
Definition getitem (df : DataFrame) (col : string) : result Series :=
  match df_columns df !! col with
  | Some v => Ok (mkSeries (df_index df) v)
  | None => Raise (KeyError col)
  end.

(** [df.col] for a column name *)
Definition getattr (df : DataFrame) (col : string) : result Series :=
  match df_columns df !! col with
  | Some v => Ok (mkSeries (df_index df) v)
  | None => Raise (AttributeError col)
  end.

(** [df[col] = s].  A series labelled by the frame's own index is stored as
    it is.  Any other series pandas would first re-label against the frame's
    index; that branch is only marked ([Unaligned]): the program never takes
    it (see [calc_ema_index]). *)
Definition setitem (df : DataFrame) (col : string) (s : Series) : result DataFrame :=
  if bool_decide (s_index s = df_index df)
  then Ok (mkDataFrame (df_index df) (<[col := s_values s]> (df_columns df)))
  else Raise (Unaligned col).

(** ** [Series.ewm(span=...).mean()]

    pandas turns the span into a centre of mass [com = (span - 1) / 2],
    rejecting [span < 1], and sets [alpha = 1 / (1 + com)].  The column is
    taken as [float64] with every infinity replaced by NaN, and the mean is
    computed in one pass that carries the running mean [weighted], the total
    weight [old_wt] of the points seen so far and their number [nobs].
    [adjust] and [ignore_na] are pandas' keywords of those names; the program
    passes neither, so they are [True] and [False]; [minp] is the minimum
    number of observations, 1 for [ewm]. *)

(** An integer as a float, exact below [2^53]. *)
Fixpoint float_of_pos (p : positive) : float :=
  match p with
  | xH => 1%float
  | xO p' => (2 * float_of_pos p')%float
  | xI p' => (2 * float_of_pos p' + 1)%float
  end.

Definition float_of_Z (z : Z) : float :=
  match z with
  | Z0 => 0%float
  | Zpos p => float_of_pos p
  | Zneg p => (- float_of_pos p)%float
  end.

Definition get_center_of_mass (span : Z) : result float :=
  if span <? 1 then Raise (ValueError "span must satisfy: span >= 1")
  else Ok (float_of_Z (span - 1) / 2)%float.

(** Infinities become NaN before the pass. *)
Definition prep_values (vals : list float) : list float :=
  (λ v, if is_infinity v then nan else v) <$> vals.

Fixpoint ewm_loop (minp : nat) (adjust ignore_na : bool) (alpha : float)
    (weighted old_wt : float) (nobs : nat) (vals : list float) : list float :=
  match vals with
  | [] => []
  | cur :: rest =>
      let old_wt_factor := (1 - alpha)%float in
      let new_wt := if adjust then 1%float else alpha in
      let is_observation := (cur =? cur)%float in
      let nobs' := if is_observation then S nobs else nobs in
      let '(weighted', old_wt') :=
        if (weighted =? weighted)%float then
          if is_observation || negb ignore_na then
            let old_wt1 := (old_wt * old_wt_factor)%float in
            if is_observation then
              (if negb (weighted =? cur)%float
               then ((old_wt1 * weighted + new_wt * cur) / (old_wt1 + new_wt))%float
               else weighted,
               if adjust then (old_wt1 + new_wt)%float else 1%float)
            else (weighted, old_wt1)
          else (weighted, old_wt)
        else if is_observation then (cur, old_wt)
        else (weighted, old_wt) in
      (if (minp <=? nobs')%nat then weighted' else nan)
      :: ewm_loop minp adjust ignore_na alpha weighted' old_wt' nobs' rest
  end.

Definition ewm (minp : nat) (adjust ignore_na : bool) (com : float)
    (vals : list float) : list float :=
  match vals with
  | [] => []
  | x0 :: rest =>
      let nobs := if (x0 =? x0)%float then 1%nat else 0%nat in
      (if (minp <=? nobs)%nat then x0 else nan)
      :: ewm_loop minp adjust ignore_na (1 / (1 + com))%float x0 1%float nobs rest
  end.

(** The values [ewm(span=w).mean()] gives for a column, [w] being at least
    1. *)
Definition ewm_span (w : Z) (vals : list float) : list float :=
  ewm 1 true false (float_of_Z (w - 1) / 2)%float (prep_values vals).

Definition ewm_mean (span : Z) (s : Series) : result Series :=
  com ← get_center_of_mass span;
  mret (mkSeries (s_index s) (ewm 1 true false com (prep_values (s_values s)))).

(** ** [class TechnicalIndicator] *)

Definition intervals : list Z := [9; 12; 21; 30; 50; 80; 100; 200].

Definition col_ema (interval : Z) : string := "ema_" +:+ pretty interval.

(** [calc_ema]: [self.data['close'].ewm(span=spans).mean()] *)
Definition calc_ema (data : DataFrame) (spans : Z) : result Series :=
  close ← getitem data "close";
  ewm_mean spans close.

(** The loop of [__init__]; [data] is the one table the object and its
    caller share, so each round reads the table the rounds before it wrote. *)
Fixpoint init_loop (data : DataFrame) (ws : list Z) : result DataFrame :=
  match ws with
  | [] => Ok data
  | interval :: ws' =>
      s ← calc_ema data interval;
      data' ← setitem data (col_ema interval) s;
      init_loop data' ws'
  end.

Definition TechnicalIndicator (data : DataFrame) : result DataFrame :=
  init_loop data intervals.

(** ** [class TimeSeriesSplit] *)

Record TimeSeriesSplit : Type := mkTimeSeriesSplit {
  tss_data : DataFrame;
  tss_intervals : list Z;
  split_data : gmap string DataFrame
}.

(** [__init__] *)
Definition TimeSeriesSplit_init (data : DataFrame) (ys : list Z) : TimeSeriesSplit :=
  mkTimeSeriesSplit data ys ∅.

(** The two labels of [data.loc[f'{year}-01-01' : f'{year}-12-31']].  A date
    string has day resolution: as a lower bound it is the first instant of
    that day, as an upper bound the last one.  Both days are representable as
    nanosecond timestamps for the years 1678 to 2261; for other years the
    model raises. *)
Definition year_start (y : Z) : Timestamp := mkTimestamp y 1 1 0 0 0 0.
Definition year_end (y : Z) : Timestamp := mkTimestamp y 12 31 23 59 59 999999999.

Definition slice_bounds (y : Z) : result (Timestamp * Timestamp) :=
  if (1678 <=? y) && (y <=? 2261)
  then Ok (year_start y, year_end y)
  else Raise (ValueError "Out of bounds nanosecond timestamp").

Fixpoint is_monotonic_increasing (idx : list Timestamp) : bool :=
  match idx with
  | x :: ((y :: _) as rest) => ts_leb x y && is_monotonic_increasing rest
  | _ => true
  end.

(** Position of the first label not below [key] ([side='left']), and of the
    first label above [key] ([side='right']).  The slice asks for them on a
    monotonic index only, where a scan from the front and pandas' binary
    search find the same position. *)
Fixpoint searchsorted_left (idx : list Timestamp) (key : Timestamp) : nat :=
  match idx with
  | [] => 0%nat
  | x :: rest => if ts_ltb x key then S (searchsorted_left rest key) else 0%nat
  end.

Fixpoint searchsorted_right (idx : list Timestamp) (key : Timestamp) : nat :=
  match idx with
  | [] => 0%nat
  | x :: rest => if ts_leb x key then S (searchsorted_right rest key) else 0%nat
  end.

(** Rows [lo:hi] of a list, as a Python slice. *)
Definition rows {A} (lo hi : nat) (l : list A) : list A :=
  take (hi - lo) (drop lo l).

(** Rows picked by a boolean mask. *)
Fixpoint select {A} (mask : list bool) (l : list A) : list A :=
  match mask, l with
  | b :: mask', x :: l' => if b then x :: select mask' l' else select mask' l'
  | _, _ => []
  end.

(** [df.loc[since:till]] with two date strings, on a [DatetimeIndex]: a
    monotonic index is cut at the two positions found by search; any other
    index is filtered label by label, and only when both bounds occur in it. *)
Definition loc_slice (df : DataFrame) (since till : Timestamp) : result DataFrame :=
  let idx := df_index df in
  if is_monotonic_increasing idx then
    let lo := searchsorted_left idx since in
    let hi := searchsorted_right idx till in
    Ok (mkDataFrame (rows lo hi idx) (rows lo hi <$> df_columns df))
  else
    let mask := (λ t, ts_leb since t && ts_leb t till) <$> idx in
    if existsb (ts_eqb since) idx && existsb (ts_eqb till) idx
    then Ok (mkDataFrame (select mask idx) (select mask <$> df_columns df))
    else Raise (KeyError "Value based partial slicing on non-monotonic DatetimeIndexes with non-existing keys is not allowed.").

(** The labels a slice from [since] to [till] keeps. *)
Definition in_window (since till t : Timestamp) : Prop :=
  ts_leb since t && ts_leb t till = true.

Global Instance in_window_dec since till t : Decision (in_window since till t).
Proof. unfold in_window. apply _. Defined.

(** [f'{year}_data'] *)
Definition data_key (y : string) : string := y +:+ "_data".

(** The slice one round of [split_by_intervals] takes for [year]. *)
Definition partition (data : DataFrame) (y : Z) : result DataFrame :=
  '(since, till) ← slice_bounds y;
  loc_slice data since till.

(** The loop of [split_by_intervals], writing into [self.split_data]. *)
Fixpoint split_loop (data : DataFrame) (ys : list Z)
    (sd : gmap string DataFrame) : result (gmap string DataFrame) :=
  match ys with
  | [] => Ok sd
  | y :: ys' =>
      part ← partition data y;
      split_loop data ys' (<[data_key (pretty y) := part]> sd)
  end.

(** [split_by_intervals]: the object after the call, and the returned
    dictionary, which is the object's own. *)
Definition split_by_intervals (self : TimeSeriesSplit)
    : result (TimeSeriesSplit * gmap string DataFrame) :=
  sd ← split_loop (tss_data self) (tss_intervals self) (split_data self);
  mret (mkTimeSeriesSplit (tss_data self) (tss_intervals self) sd, sd).

(** ** The module's top level *)

Definition years : list Z := [2017; 2018; 2019; 2020; 2021; 2022; 2023; 2024].
Definition color_palettes : list string :=
  ["orange"; "purple"; "brown"; "blue"; "olive"].

(** From the loaded table [df] to the global [split_data]:
    [TechnicalIndicator(df)], then
    [TimeSeriesSplit(df, years).split_by_intervals()]. *)
Definition startup (df : DataFrame) : result (gmap string DataFrame) :=
  df' ← TechnicalIndicator df;
  r ← split_by_intervals (TimeSeriesSplit_init df' years);
  mret r.2.

(** ** [display_candlestick] *)

Record Candlestick : Type := mkCandlestick {
  c_x : list Timestamp;
  c_open : list float;
  c_high : list float;
  c_low : list float;
  c_close : list float;
  c_name : string
}.

Record Scatter : Type := mkScatter {
  sc_x : list Timestamp;
  sc_y : list float;
  sc_mode : string;
  sc_name : string;
  sc_color : string
}.

Record Layout : Type := mkLayout {
  template : string;
  xaxis_rangeslider_visible : bool;
  height : Z
}.

Record Figure : Type := mkFigure {
  fig_candlestick : Candlestick;
  fig_traces : list Scatter;
  fig_layout : Layout
}.

(** The [for i, indicator_col in enumerate(...)] loop, from position [i]. *)
Fixpoint add_traces (year_data : DataFrame) (i : nat) (cols : list string)
    (traces : list Scatter) : result (list Scatter) :=
  match cols with
  | [] => Ok traces
  | indicator_col :: cols' =>
      y ← getitem year_data indicator_col;
      let color := color_palettes !!! (i mod length color_palettes)%nat in
      add_traces year_data (S i) cols'
        (traces ++ [mkScatter (df_index year_data) (s_values y) "lines"
                      indicator_col color])
  end.

Definition display_candlestick (sd : gmap string DataFrame)
    (dark_mode selected_indicators : list string) (selected_year : string)
    : result (Figure * string) :=
  year_data ← match sd !! data_key selected_year with
              | Some d => Ok d
              | None => Raise (KeyError (data_key selected_year))
              end;
  o ← getattr year_data "open";
  h ← getattr year_data "high";
  l ← getattr year_data "low";
  c ← getattr year_data "close";
  let candle := mkCandlestick (df_index year_data) (s_values o) (s_values h)
                  (s_values l) (s_values c) "Candlestick" in
  traces ← add_traces year_data 0 (take 5 selected_indicators) [];
  if bool_decide ("dark" ∈ dark_mode)
  then mret (mkFigure candle traces (mkLayout "plotly_dark" false 800), "dark-mode")
  else mret (mkFigure candle traces (mkLayout "plotly" false 800), "light-mode").

(** ** The option lists of the page

    [indicator_columns] keeps the column labels that contain ['ema_'],
    ['sma_'] or ['macd_']; the labels are taken in the order [df.columns]
    gives them, which the finite map of a frame does not record, so they are
    an argument.  The year dropdown offers [str(year)] for every year. *)

Fixpoint contains (sub s : string) : bool :=
  String.prefix sub s ||
  match s with
  | EmptyString => false
  | String _ s' => contains sub s'
  end.

Definition is_indicator_column (col : string) : bool :=
  contains "ema_" col || contains "sma_" col || contains "macd_" col.

Definition indicator_columns (columns : list string) : list string :=
  filter (λ col, is_indicator_column col = true) columns.

Definition year_options : list string := (λ y : Z, pretty y) <$> years.

(** ** [toggle_indicator_menu] *)

Definition menu_shown : gmap string string :=
  list_to_map
    [ ("display", "block"); ("position", "absolute"); ("right", "10px");
      ("top", "70px"); ("backgroundColor", "white"); ("padding", "10px");
      ("border", "1px solid #ddd");
      ("boxShadow", "0 4px 6px rgba(0, 0, 0, 0.1)"); ("zIndex", "1000") ].

Definition toggle_indicator_menu (n_clicks : Z) : gmap string string :=
  if n_clicks mod 2 =? 1 then menu_shown else {[ "display" := "none" ]}.

(** ** Reading a table

    [aligned df]: every column has one cell per index label. *)

Definition aligned (df : DataFrame) : Prop :=
  map_Forall (λ _ v, length v = length (df_index df)) (df_columns df).

(** ** Reading the moving average

    [smoothing w] is [alpha] as the pass has it for the span [w],
    [1 / (1 + (w - 1) / 2)]; [old_weight a t] is the weight [old_wt] the pass
    carries after [t] rounds that met observations: 1, then
    [old_wt * (1 - a) + 1]; [ema_step a old_wt e x] is the mean after a round
    that came with the mean [e] and the weight [old_wt] and met the value
    [x].  All of it is float arithmetic, in the order the pass has it. *)

Definition smoothing (w : Z) : float :=
  (1 / (1 + float_of_Z (w - 1) / 2))%float.

Fixpoint old_weight (a : float) (t : nat) : float :=
  match t with
  | O => 1%float
  | S t' => (old_weight a t' * (1 - a) + 1)%float
  end.

Definition ema_step (a old_wt e x : float) : float :=
  if (e =? x)%float then e
  else ((old_wt * (1 - a) * e + 1 * x) / (old_wt * (1 - a) + 1))%float.

(** The recurrence as the specification words it: the first value is the
    first close, and each later value is [alpha * close[t] + (1 - alpha) *
    ema[t-1]] with [alpha = 2 / (w + 1)], up to [1e-9]. *)
Definition conventional_alpha (w : Z) : float := (2 / (float_of_Z w + 1))%float.

Definition conventional_recurrence (w : Z) (close ema : list float) : Prop :=
  ema !! 0%nat = close !! 0%nat ∧
  ∀ (t : nat) x e e',
    close !! S t = Some x → ema !! t = Some e → ema !! S t = Some e' →
    (abs (e' - (conventional_alpha w * x + (1 - conventional_alpha w) * e))
     <=? 1 / 1000000000)%float = true.

(** The columns after the indicator loop has gone through the spans [ws],
    every one of them smoothing the same [close]. *)
Definition with_ema (close : list float) (cols : gmap string (list float))
    (ws : list Z) : gmap string (list float) :=
  foldl (λ m w, <[col_ema w := ewm_span w close]> m) cols ws.

(** ** Reading the figure

    [trace_for year_data c tr]: the trace [tr] plots column [c] of
    [year_data] against its index, under the name [c]. *)

Definition trace_for (year_data : DataFrame) (c : string) (tr : Scatter) : Prop :=
  sc_name tr = c ∧ sc_x tr = df_index year_data ∧
  df_columns year_data !! c = Some (sc_y tr).

(** ** A small table

    Four hourly rows around the turn of the year 2020, used to run the
    program on. *)

Definition sample_index : list Timestamp :=
  [ mkTimestamp 2020 12 31 22 0 0 0;
    mkTimestamp 2020 12 31 23 59 59 0;
    mkTimestamp 2021 1 1 0 0 0 0;
    mkTimestamp 2021 1 1 1 0 0 0 ].

Definition sample_prices : DataFrame :=
  mkDataFrame sample_index
    (<["open" := [10; 11; 12; 13]%float]>
       (<["high" := [12; 13; 14; 15]%float]>
          (<["low" := [9; 10; 11; 12]%float]>
             (<["close" := [11; 12; 13; 14]%float]> ∅)))).

(** The same table without rows. *)
Definition empty_prices : DataFrame :=
  mkDataFrame []
    (<["open" := []]> (<["high" := []]> (<["low" := []]> (<["close" := []]> ∅)))).

(** A table that has a close column and no other. *)
Definition close_only : DataFrame :=
  mkDataFrame sample_index (<["close" := [11; 12; 13; 14]%float]> ∅).

(** Two requests: seven indicator names, and five names followed by one no
    column carries. *)
Definition seven_names : list string :=
  ["ema_9"; "ema_12"; "ema_21"; "ema_30"; "ema_50"; "ema_80"; "ema_100"].

Definition five_then_unknown : list string :=
  ["ema_9"; "ema_12"; "ema_21"; "ema_30"; "ema_50"; "ema_999"].

(** * Properties *)

(** Closes a decidable fact about concrete data by evaluating its decision. *)
Ltac by_evaluation := apply (bool_decide_unpack _); vm_compute; exact I.

(** ** The order on timestamps *)

Section TimestampOrder.

Lemma lex_compare_refl a : lex_compare a a = Eq.
Proof. induction a as [|x a IH]; simpl; [done|]. by rewrite Z.compare_refl. Qed.

Lemma lex_compare_antisym a b : lex_compare b a = CompOpp (lex_compare a b).
Proof.
  revert b. induction a as [|x a IH]; intros [|y b]; simpl; try done.
  rewrite (Z.compare_antisym x y).
  destruct (x ?= y); simpl; auto.
Qed.

Lemma lex_compare_le_trans a b c :
  lex_compare a b ≠ Gt → lex_compare b c ≠ Gt → lex_compare a c ≠ Gt.
Proof.
  revert b c. induction a as [|x a IH]; intros [|y b] [|z c]; simpl; try done.
  destruct (Z.compare_spec x y), (Z.compare_spec y z), (Z.compare_spec x z);
    try done; try lia; subst; eauto.
Qed.

Lemma ts_le_refl a : ts_le a a.
Proof. unfold ts_le, ts_leb, ts_compare. by rewrite lex_compare_refl. Qed.

Lemma ts_le_trans a b c : ts_le a b → ts_le b c → ts_le a c.
Proof.
  unfold ts_le, ts_leb, ts_compare. intros Hab Hbc.
  pose proof (lex_compare_le_trans (ts_fields a) (ts_fields b) (ts_fields c)) as H.
  destruct (lex_compare (ts_fields a) (ts_fields b)),
           (lex_compare (ts_fields b) (ts_fields c)),
           (lex_compare (ts_fields a) (ts_fields c)); try done;
    exfalso; by apply H.
Qed.

Lemma ts_ltb_le a b : ts_ltb a b = true → ts_le a b.
Proof. unfold ts_le, ts_ltb, ts_leb. by destruct (ts_compare a b). Qed.

(** The order is total: what is not below [b] is at or above it. *)
Lemma ts_ltb_false_le a b : ts_ltb a b = false → ts_le b a.
Proof.
  unfold ts_le, ts_ltb, ts_leb, ts_compare.
  rewrite (lex_compare_antisym (ts_fields a) (ts_fields b)).
  by destruct (lex_compare (ts_fields a) (ts_fields b)).
Qed.

Lemma ts_leb_false_le a b : ts_leb a b = false → ts_le b a.
Proof.
  unfold ts_le, ts_leb, ts_compare.
  rewrite (lex_compare_antisym (ts_fields a) (ts_fields b)).
  by destruct (lex_compare (ts_fields a) (ts_fields b)).
Qed.

Lemma ts_ltb_leb_excl a b : ts_ltb a b = true → ts_leb b a = false.
Proof.
  unfold ts_ltb, ts_leb, ts_compare.
  rewrite (lex_compare_antisym (ts_fields a) (ts_fields b)).
  by destruct (lex_compare (ts_fields a) (ts_fields b)).
Qed.

End TimestampOrder.

(** ** The window of a year *)

Lemma year_start_le_end y : ts_le (year_start y) (year_end y).
Proof.
  unfold ts_le, ts_leb, ts_compare, year_start, year_end. cbn -[Z.compare].
  by rewrite Z.compare_refl.
Qed.

(** A calendar timestamp lies in the window of year [y] exactly when its year
    is [y]. *)
Lemma in_window_year y t :
  valid_ts t → in_window (year_start y) (year_end y) t ↔ year t = y.
Proof.
  destruct t as [ty tm td th tmi ts tn].
  unfold valid_ts, in_window, ts_leb, ts_compare, year_start, year_end.
  cbn -[Z.compare].
  intros (Hm & Hd & Hh & Hmi & Hs & Hn).
  rewrite andb_true_iff.
  split.
  - intros [H1 H2].
    destruct (Z.compare_spec y ty) as [?|?|?]; [done| |done].
    destruct (Z.compare_spec ty y) as [?|?|?]; [done|lia|done].
  - intros ->. rewrite Z.compare_refl.
    split.
    + repeat (match goal with
              | |- context [?a ?= ?b] =>
                  destruct (Z.compare_spec a b); try (exfalso; lia)
              end); done.
    + repeat (match goal with
              | |- context [?a ?= ?b] =>
                  destruct (Z.compare_spec a b); try (exfalso; lia)
              end); done.
Qed.

(** ** Slicing a monotonic index *)

Section Slicing.

Lemma filter_none {A} (P : A → Prop) `{!∀ x, Decision (P x)} (l : list A) :
  Forall (λ x, ¬ P x) l → filter P l = [].
Proof.
  induction 1 as [|x l Hx _ IH]; [done|]. by rewrite filter_cons_False.
Qed.

Lemma filter_ext_in {A} (P1 P2 : A → Prop)
    `{!∀ x, Decision (P1 x), !∀ x, Decision (P2 x)} (l : list A) :
  (∀ x, x ∈ l → P1 x ↔ P2 x) → filter P1 l = filter P2 l.
Proof.
  induction l as [|x l IH]; intros Hext; [done|].
  assert (filter P1 l = filter P2 l) as Hl.
  { apply IH. intros z Hz. apply Hext. by right. }
  destruct (decide (P1 x)) as [Hx|Hx].
  - rewrite !filter_cons_True; [by rewrite Hl|by apply Hext; [left|]|done].
  - rewrite !filter_cons_False; [done| |done].
    intros Hx2. apply Hx, Hext; [left|done].
Qed.

Lemma monotonic_cons x idx :
  is_monotonic_increasing (x :: idx) = true →
  is_monotonic_increasing idx = true ∧ Forall (ts_le x) idx.
Proof.
  revert x. induction idx as [|y idx IH]; intros x H; [by split|].
  simpl in H. apply andb_true_iff in H as [Hxy Hrest].
  destruct (IH y Hrest) as [_ Hall].
  split; [exact Hrest|].
  constructor; [exact Hxy|].
  eapply Forall_impl; [exact Hall|].
  intros z Hz. by eapply ts_le_trans.
Qed.

(** Ascending labels without repetition are monotonic. *)
Lemma ascending_monotonic idx :
  StronglySorted (λ a b, ts_ltb a b = true) idx →
  is_monotonic_increasing idx = true.
Proof.
  induction 1 as [|x idx Hs IH Hall]; [done|].
  destruct idx as [|y idx]; [done|].
  simpl. apply andb_true_iff. split; [|exact IH].
  apply ts_ltb_le. by inversion Hall.
Qed.

Lemma take_searchsorted_right idx till :
  is_monotonic_increasing idx = true →
  take (searchsorted_right idx till) idx = filter (λ t, ts_le t till) idx.
Proof.
  induction idx as [|x idx IH]; intros Hmono; [done|].
  apply monotonic_cons in Hmono as [Hmono Hall].
  simpl. destruct (ts_leb x till) eqn:Hx.
  - rewrite filter_cons_True by done. simpl. by rewrite IH.
  - rewrite filter_cons_False by (unfold ts_le; congruence). simpl.
    symmetry. apply filter_none.
    eapply Forall_impl; [exact Hall|].
    intros z Hxz Hz.
    assert (ts_le x till) as Hcontra by by eapply ts_le_trans.
    unfold ts_le in Hcontra. congruence.
Qed.

Lemma rows_searchsorted idx since till :
  is_monotonic_increasing idx = true →
  ts_le since till →
  rows (searchsorted_left idx since) (searchsorted_right idx till) idx
  = filter (in_window since till) idx.
Proof.
  intros Hmono Hst. unfold rows.
  induction idx as [|x idx IH]; [done|].
  pose proof Hmono as Hmono0.
  apply monotonic_cons in Hmono as [Hmono Hall].
  cbn [searchsorted_left].
  destruct (ts_ltb x since) eqn:Hx.
  - assert (ts_leb x till = true) as Hxt.
    { eapply ts_le_trans; [by apply ts_ltb_le|done]. }
    cbn [searchsorted_right]. rewrite Hxt. simpl.
    rewrite filter_cons_False.
    + by apply IH.
    + unfold in_window. rewrite (ts_ltb_leb_excl _ _ Hx). done.
  - rewrite Nat.sub_0_r. simpl drop.
    rewrite take_searchsorted_right by done.
    apply ts_ltb_false_le in Hx.
    apply filter_ext_in. intros t Ht. unfold in_window, ts_le.
    rewrite andb_true_iff.
    split; [|tauto]. intros Htt. split; [|done].
    apply elem_of_cons in Ht as [->|Ht]; [done|].
    eapply ts_le_trans; [exact Hx|].
    by eapply (proj1 (Forall_forall _ _) Hall).
Qed.

(** Where a label of the window sits between the two search positions. *)
Lemma searchsorted_left_below idx key : ∀ (j : nat) t,
  (j < searchsorted_left idx key)%nat → idx !! j = Some t →
  ts_ltb t key = true.
Proof.
  induction idx as [|x idx IH]; intros j t Hj Ht; [done|].
  cbn [searchsorted_left] in Hj. destruct (ts_ltb x key) eqn:Hx; [|lia].
  destruct j as [|j]; [by injection Ht as <-|].
  cbn in Ht. apply (IH j); [lia|done].
Qed.

Lemma searchsorted_right_above idx key : ∀ (j : nat) t,
  is_monotonic_increasing idx = true →
  idx !! j = Some t → ts_le t key →
  (j < searchsorted_right idx key)%nat.
Proof.
  induction idx as [|x idx IH]; intros j t Hmono Ht Htk; [done|].
  apply monotonic_cons in Hmono as [Hmono Hall].
  cbn [searchsorted_right]. destruct (ts_leb x key) eqn:Hx.
  - destruct j as [|j]; [lia|]. cbn in Ht.
    pose proof (IH j t Hmono Ht Htk). lia.
  - exfalso. assert (ts_le x key) as Hcontra.
    { destruct j as [|j]; [by injection Ht as ->|]. cbn in Ht.
      eapply ts_le_trans; [|exact Htk].
      eapply (proj1 (Forall_forall _ _) Hall). by eapply list_elem_of_lookup_2. }
    unfold ts_le in Hcontra. congruence.
Qed.

Lemma rows_lookup_in {A} (lo hi j : nat) (l : list A) :
  (lo ≤ j < hi)%nat → rows lo hi l !! (j - lo)%nat = l !! j.
Proof.
  intros Hj. unfold rows. rewrite lookup_take_lt by lia.
  rewrite lookup_drop. f_equal. lia.
Qed.

End Slicing.

(** ** Keys of the partition dictionary *)

Section Keys.

Lemma string_length_app s t :
  String.length (s +:+ t) = (String.length s + String.length t)%nat.
Proof.
  induction s as [|a s IH]; [done|].
  change (String a s +:+ t) with (String a (s +:+ t)). cbn. by rewrite IH.
Qed.

Lemma string_app_inj_r t s1 s2 : s1 +:+ t = s2 +:+ t → s1 = s2.
Proof.
  revert s2. induction s1 as [|a s1 IH]; intros [|b s2] H.
  - done.
  - apply (f_equal String.length) in H.
    rewrite !string_length_app in H. cbn in H. lia.
  - apply (f_equal String.length) in H.
    rewrite !string_length_app in H. cbn in H. lia.
  - change (String a (s1 +:+ t) = String b (s2 +:+ t)) in H.
    injection H as -> H. f_equal. by apply IH.
Qed.

Global Instance data_key_inj : Inj (=) (=) data_key.
Proof. intros s1 s2 H. by eapply string_app_inj_r. Qed.

(** Two years share a key only when they are the same year. *)
Lemma year_key_inj (y1 y2 : Z) :
  data_key (pretty y1) = data_key (pretty y2) → y1 = y2.
Proof. intros H. by apply (inj pretty), (inj data_key). Qed.

End Keys.

(** ** What [split_by_intervals] stores *)

Section Split.

Lemma split_loop_cons data y ys sd :
  split_loop data (y :: ys) sd
  = (p ← partition data y; split_loop data ys (<[data_key (pretty y) := p]> sd)).
Proof. done. Qed.

Lemma split_loop_spec data ys : ∀ sd0 sd,
  split_loop data ys sd0 = Ok sd →
  (∀ y, y ∈ ys →
     ∃ p, partition data y = Ok p ∧ sd !! data_key (pretty y) = Some p) ∧
  (∀ k, (∀ y, y ∈ ys → k ≠ data_key (pretty y)) → sd !! k = sd0 !! k).
Proof.
  induction ys as [|y0 ys IH]; intros sd0 sd Hrun.
  - cbn in Hrun. injection Hrun as <-. split; [|done].
    intros y Hy. by apply elem_of_nil in Hy.
  - rewrite split_loop_cons in Hrun.
    destruct (partition data y0) as [p0|e] eqn:Hp0; [|done]. cbn in Hrun.
    destruct (IH _ _ Hrun) as [IHa IHb].
    split.
    + intros y Hy.
      destruct (decide (y ∈ ys)) as [Hin|Hnin]; [by apply IHa|].
      apply elem_of_cons in Hy as [->|Hy]; [|done].
      exists p0. split; [done|].
      rewrite IHb; [by rewrite lookup_insert_eq|].
      intros y' Hy' Heq. apply year_key_inj in Heq. by subst.
    + intros k Hk. rewrite IHb.
      * rewrite lookup_insert_ne; [done|]. intros Heq. eapply Hk; [left|done].
      * intros y Hy. apply Hk. by right.
Qed.

(** Every stored slice is the slice of one of the listed years. *)
Lemma split_loop_lookup data ys sd k p :
  split_loop data ys ∅ = Ok sd →
  sd !! k = Some p →
  ∃ y, y ∈ ys ∧ k = data_key (pretty y) ∧ partition data y = Ok p.
Proof.
  intros Hrun Hk. destruct (split_loop_spec _ _ _ _ Hrun) as [Ha Hb].
  destruct (decide (Exists (λ y, k = data_key (pretty y)) ys)) as [Hex|Hnex].
  - apply Exists_exists in Hex as (y & Hy & ->).
    destruct (Ha y Hy) as (p' & Hp' & Hlook).
    exists y. repeat split; [done|]. congruence.
  - rewrite Hb in Hk; [by rewrite lookup_empty in Hk|].
    intros y Hy ->. apply Hnex, Exists_exists. exists y.
    by split.
Qed.

(** On a monotonic index, the slice of a year keeps the rows of its window. *)
Lemma partition_monotonic data y :
  is_monotonic_increasing (df_index data) = true →
  1678 ≤ y ≤ 2261 →
  ∃ p, partition data y = Ok p ∧
       df_index p = filter (in_window (year_start y) (year_end y)) (df_index data).
Proof.
  intros Hmono Hy. unfold partition, slice_bounds.
  assert ((1678 <=? y) && (y <=? 2261) = true) as ->.
  { apply andb_true_iff. split; apply Z.leb_le; lia. }
  cbn. unfold loc_slice. rewrite Hmono.
  eexists. split; [done|]. cbn.
  apply rows_searchsorted; [done|]. apply year_start_le_end.
Qed.

Lemma split_loop_runs data ys sd0 :
  is_monotonic_increasing (df_index data) = true →
  Forall (λ y, 1678 ≤ y ≤ 2261) ys →
  ∃ sd, split_loop data ys sd0 = Ok sd.
Proof.
  intros Hmono Hys. revert sd0.
  induction Hys as [|y ys Hy _ IH]; intros sd0; [by eexists|].
  rewrite split_loop_cons.
  destruct (partition_monotonic data y Hmono Hy) as (p & -> & _). cbn.
  apply IH.
Qed.

End Split.

(** ** Year partitions *)

Section Partitions.

Variable data : DataFrame.
Hypothesis Hmono : is_monotonic_increasing (df_index data) = true.

Lemma partition_index y p t :
  1678 ≤ y ≤ 2261 →
  partition data y = Ok p →
  t ∈ df_index p ↔ in_window (year_start y) (year_end y) t ∧ t ∈ df_index data.
Proof.
  intros Hy Hp.
  destruct (partition_monotonic data y Hmono Hy) as (p' & Hp' & Hidx).
  assert (p' = p) as -> by congruence.
  rewrite Hidx. apply list_elem_of_filter.
Qed.

Lemma split_by_intervals_runs ys :
  Forall (λ y, 1678 ≤ y ≤ 2261) ys →
  ∃ sd, split_loop data ys ∅ = Ok sd ∧
        split_by_intervals (TimeSeriesSplit_init data ys)
        = Ok (mkTimeSeriesSplit data ys sd, sd).
Proof.
  intros Hys. destruct (split_loop_runs data ys ∅ Hmono Hys) as [sd Hsd].
  exists sd. split; [done|].
  unfold split_by_intervals, TimeSeriesSplit_init. cbn. by rewrite Hsd.
Qed.

(** A row whose label lies in the window of a year is in that year's
    partition, with its cell of every column. *)
Lemma partition_row y p (j : nat) t :
  1678 ≤ y ≤ 2261 →
  partition data y = Ok p →
  df_index data !! j = Some t →
  in_window (year_start y) (year_end y) t →
  ∃ i : nat,
    df_index p !! i = Some t ∧
    ∀ c v, df_columns data !! c = Some v →
           ∃ v', df_columns p !! c = Some v' ∧ v' !! i = v !! j.
Proof.
  intros Hy Hp Ht Hwin. unfold partition, slice_bounds in Hp.
  assert ((1678 <=? y) && (y <=? 2261) = true) as Hrange.
  { apply andb_true_iff. split; apply Z.leb_le; lia. }
  rewrite Hrange in Hp. cbn in Hp. unfold loc_slice in Hp.
  rewrite Hmono in Hp. injection Hp as <-.
  unfold in_window in Hwin. apply andb_true_iff in Hwin as [Hlo Hhi].
  assert (searchsorted_left (df_index data) (year_start y) ≤ j
          < searchsorted_right (df_index data) (year_end y))%nat as Hj.
  { split.
    - destruct (decide (j < searchsorted_left (df_index data) (year_start y))%nat)
        as [Hlt|]; [|lia].
      pose proof (searchsorted_left_below _ _ j t Hlt Ht) as Hbelow.
      apply ts_ltb_leb_excl in Hbelow. congruence.
    - by eapply searchsorted_right_above. }
  exists (j - searchsorted_left (df_index data) (year_start y))%nat. cbn. split.
  - by rewrite rows_lookup_in.
  - intros c v Hv. exists (rows (searchsorted_left (df_index data) (year_start y))
                             (searchsorted_right (df_index data) (year_end y)) v).
    split; [by rewrite lookup_fmap, Hv|]. by apply rows_lookup_in.
Qed.

End Partitions.

(** C2.  On a table sorted by timestamp, split over years the slice can
    name, a row stamped [Y-12-31 23:59:59] is a row of the partition stored
    for [Y], and a row stamped [(Y+1)-01-01 00:00:00] is a row of the
    partition stored for [Y+1]: the partition has the label at some position
    and, at that position of every column, the cell the table has in that
    row.  Neither label is in the other's partition. *)
Theorem partition_boundary (data : DataFrame) (ys : list Z) (Y : Z) :
  is_monotonic_increasing (df_index data) = true →
  Forall (λ y, 1678 ≤ y ≤ 2261) ys →
  ∃ sd,
    split_by_intervals (TimeSeriesSplit_init data ys)
    = Ok (mkTimeSeriesSplit data ys sd, sd) ∧
    (Y ∈ ys →
     ∀ j : nat, df_index data !! j = Some (mkTimestamp Y 12 31 23 59 59 0) →
     ∃ p (i : nat),
       sd !! data_key (pretty Y) = Some p ∧
       df_index p !! i = Some (mkTimestamp Y 12 31 23 59 59 0) ∧
       (∀ c v, df_columns data !! c = Some v →
               ∃ v', df_columns p !! c = Some v' ∧ v' !! i = v !! j) ∧
       mkTimestamp Y 12 31 23 59 59 0 ∈ df_index p ∧
       mkTimestamp (Y + 1) 1 1 0 0 0 0 ∉ df_index p) ∧
    (Y + 1 ∈ ys →
     ∀ j : nat, df_index data !! j = Some (mkTimestamp (Y + 1) 1 1 0 0 0 0) →
     ∃ p (i : nat),
       sd !! data_key (pretty (Y + 1)) = Some p ∧
       df_index p !! i = Some (mkTimestamp (Y + 1) 1 1 0 0 0 0) ∧
       (∀ c v, df_columns data !! c = Some v →
               ∃ v', df_columns p !! c = Some v' ∧ v' !! i = v !! j) ∧
       mkTimestamp (Y + 1) 1 1 0 0 0 0 ∈ df_index p ∧
       mkTimestamp Y 12 31 23 59 59 0 ∉ df_index p).
Proof.
  intros Hmono Hys.
  destruct (split_by_intervals_runs data Hmono ys Hys) as (sd & Hloop & Hrun).
  exists sd. split; [done|].
  destruct (split_loop_spec _ _ _ _ Hloop) as [Hstored _].
  assert (valid_ts (mkTimestamp Y 12 31 23 59 59 0)) as Hv1
    by (unfold valid_ts; cbn; lia).
  assert (valid_ts (mkTimestamp (Y + 1) 1 1 0 0 0 0)) as Hv2
    by (unfold valid_ts; cbn; lia).
  split.
  - intros HY j Hrow. destruct (Hstored Y HY) as (p & Hp & Hlook).
    assert (1678 ≤ Y ≤ 2261) as HYr by by eapply (proj1 (Forall_forall _ _) Hys).
    destruct (partition_row data Hmono Y p j _ HYr Hp Hrow) as (i & Hi & Hcells).
    { by apply in_window_year. }
    exists p, i. split; [done|]. split; [done|]. split; [done|].
    split; [by eapply list_elem_of_lookup_2|].
    rewrite (partition_index data Hmono Y p _ HYr Hp).
    rewrite in_window_year by done. cbn. intros [? _]. lia.
  - intros HY j Hrow. destruct (Hstored (Y + 1) HY) as (p & Hp & Hlook).
    assert (1678 ≤ Y + 1 ≤ 2261) as HYr
      by by eapply (proj1 (Forall_forall _ _) Hys).
    destruct (partition_row data Hmono (Y + 1) p j _ HYr Hp Hrow)
      as (i & Hi & Hcells).
    { by apply in_window_year. }
    exists p, i. split; [done|]. split; [done|]. split; [done|].
    split; [by eapply list_elem_of_lookup_2|].
    rewrite (partition_index data Hmono (Y + 1) p _ HYr Hp).
    rewrite in_window_year by done. cbn. intros [? _]. lia.
Qed.

Lemma partition_boundary_witness :
  is_monotonic_increasing (df_index sample_prices) = true ∧
  Forall (λ y, 1678 ≤ y ≤ 2261) years ∧
  ∃ sd p20 p21 (i20 i21 : nat) c20 c21,
    split_by_intervals (TimeSeriesSplit_init sample_prices years)
    = Ok (mkTimeSeriesSplit sample_prices years sd, sd) ∧
    sd !! "2020_data" = Some p20 ∧
    df_index p20 !! i20 = Some (mkTimestamp 2020 12 31 23 59 59 0) ∧
    df_columns p20 !! "close" = Some c20 ∧ c20 !! i20 = Some 12%float ∧
    sd !! "2021_data" = Some p21 ∧
    df_index p21 !! i21 = Some (mkTimestamp 2021 1 1 0 0 0 0) ∧
    df_columns p21 !! "close" = Some c21 ∧ c21 !! i21 = Some 13%float.
Proof.
  assert (is_monotonic_increasing (df_index sample_prices) = true) as Hmono
    by reflexivity.
  assert (Forall (λ y, 1678 ≤ y ≤ 2261) years) as Hys
    by (unfold years; repeat constructor; lia).
  split; [exact Hmono|]. split; [exact Hys|].
  destruct (partition_boundary sample_prices years 2020 Hmono Hys)
    as (sd & Hrun & H20 & H21).
  destruct (H20 ltac:(by_evaluation) 1%nat eq_refl)
    as (p20 & i20 & Hl20 & Hi20 & Hc20 & _).
  destruct (H21 ltac:(by_evaluation) 2%nat eq_refl)
    as (p21 & i21 & Hl21 & Hi21 & Hc21 & _).
  destruct (Hc20 "close" _ eq_refl) as (c20 & Hcol20 & Hcell20).
  destruct (Hc21 "close" _ eq_refl) as (c21 & Hcol21 & Hcell21).
  exists sd, p20, p21, i20, i21, c20, c21.
  repeat split; assumption.
Defined.

(** C3.  On a table with ascending calendar timestamps (a monotonic index;
    unique ascending timestamps are one, see [ascending_monotonic]), split
    over years the slice can name: the timestamps found in the stored
    partitions are exactly the table's timestamps whose year is listed, and
    two partitions stored under different keys share no timestamp. *)
Theorem partition_coverage_disjoint (data : DataFrame) (ys : list Z) :
  is_monotonic_increasing (df_index data) = true →
  Forall valid_ts (df_index data) →
  Forall (λ y, 1678 ≤ y ≤ 2261) ys →
  ∃ sd,
    split_by_intervals (TimeSeriesSplit_init data ys)
    = Ok (mkTimeSeriesSplit data ys sd, sd) ∧
    (∀ t, (∃ k p, sd !! k = Some p ∧ t ∈ df_index p)
          ↔ t ∈ df_index data ∧ year t ∈ ys) ∧
    (∀ k1 k2 p1 p2 t,
       k1 ≠ k2 → sd !! k1 = Some p1 → sd !! k2 = Some p2 →
       t ∈ df_index p1 → t ∉ df_index p2).
Proof.
  intros Hmono Hvalid Hys.
  destruct (split_by_intervals_runs data Hmono ys Hys) as (sd & Hloop & Hrun).
  exists sd. split; [done|].
  destruct (split_loop_spec _ _ _ _ Hloop) as [Hstored _].
  assert (∀ k p t, sd !! k = Some p → t ∈ df_index p →
            ∃ y, y ∈ ys ∧ k = data_key (pretty y) ∧
                 t ∈ df_index data ∧ year t = y) as Hinv.
  { intros k p t Hk Ht.
    destruct (split_loop_lookup _ _ _ _ _ Hloop Hk) as (y & Hy & -> & Hp).
    assert (1678 ≤ y ≤ 2261) as Hyr by by eapply (proj1 (Forall_forall _ _) Hys).
    apply (partition_index data Hmono y p t Hyr Hp) in Ht as [Hwin Hin].
    exists y. repeat split; [done..|].
    apply in_window_year; [|done].
    by eapply (proj1 (Forall_forall _ _) Hvalid). }
  split.
  - intros t. split.
    + intros (k & p & Hk & Ht).
      destruct (Hinv k p t Hk Ht) as (y & Hy & _ & Hin & <-). done.
    + intros [Hin Hy].
      destruct (Hstored _ Hy) as (p & Hp & Hlook).
      exists (data_key (pretty (year t))), p. split; [done|].
      assert (1678 ≤ year t ≤ 2261) as Hyr
        by by eapply (proj1 (Forall_forall _ _) Hys).
      apply (partition_index data Hmono (year t) p t Hyr Hp).
      split; [|done]. apply in_window_year; [|done].
      by eapply (proj1 (Forall_forall _ _) Hvalid).
  - intros k1 k2 p1 p2 t Hne Hk1 Hk2 Ht1 Ht2.
    destruct (Hinv k1 p1 t Hk1 Ht1) as (y1 & _ & -> & _ & <-).
    destruct (Hinv k2 p2 t Hk2 Ht2) as (y2 & _ & -> & _ & <-).
    done.
Qed.

Lemma partition_coverage_disjoint_witness :
  is_monotonic_increasing (df_index sample_prices) = true ∧
  Forall valid_ts (df_index sample_prices) ∧
  Forall (λ y, 1678 ≤ y ≤ 2261) years ∧
  ∃ sd,
    split_by_intervals (TimeSeriesSplit_init sample_prices years)
    = Ok (mkTimeSeriesSplit sample_prices years sd, sd) ∧
    (∀ t, (∃ k p, sd !! k = Some p ∧ t ∈ df_index p)
          ↔ t ∈ df_index sample_prices ∧ year t ∈ years) ∧
    (∀ k1 k2 p1 p2 t,
       k1 ≠ k2 → sd !! k1 = Some p1 → sd !! k2 = Some p2 →
       t ∈ df_index p1 → t ∉ df_index p2).
Proof.
  assert (is_monotonic_increasing (df_index sample_prices) = true) as Hmono
    by reflexivity.
  assert (Forall valid_ts (df_index sample_prices)) as Hvalid
    by (cbn; unfold sample_index, valid_ts; repeat constructor; cbn; lia).
  assert (Forall (λ y, 1678 ≤ y ≤ 2261) years) as Hys
    by (unfold years; repeat constructor; lia).
  split; [exact Hmono|]. split; [exact Hvalid|]. split; [exact Hys|].
  exact (partition_coverage_disjoint sample_prices years Hmono Hvalid Hys).
Defined.

(** ** The moving average *)

Section Ewm.

Lemma ewm_loop_length minp adjust ignore_na a w ow nobs vals :
  length (ewm_loop minp adjust ignore_na a w ow nobs vals) = length vals.
Proof.
  revert w ow nobs. induction vals as [|x vals IH]; intros w ow nobs; [done|].
  cbn [ewm_loop].
  destruct (if (w =? w)%float then _ else _) as [w' ow'].
  cbn. by rewrite IH.
Qed.

Lemma ewm_length minp adjust ignore_na com vals :
  length (ewm minp adjust ignore_na com vals) = length vals.
Proof. destruct vals as [|x vals]; [done|]. cbn. by rewrite ewm_loop_length. Qed.

Lemma ewm_span_length w vals : length (ewm_span w vals) = length vals.
Proof. unfold ewm_span, prep_values. by rewrite ewm_length, length_fmap. Qed.

Lemma finite_no_infinity x : is_finite x = true → is_infinity x = false.
Proof. unfold is_finite. by destruct (is_nan x), (is_infinity x). Qed.

Lemma finite_no_nan x : is_finite x = true → is_nan x = false.
Proof. unfold is_finite. by destruct (is_nan x), (is_infinity x). Qed.

Lemma no_nan_eqb x : is_nan x = false → (x =? x)%float = true.
Proof. unfold is_nan. by destruct (x =? x)%float. Qed.

(** A column of finite values goes into the pass as it is. *)
Lemma prep_values_finite vals :
  Forall (λ x, is_finite x = true) vals → prep_values vals = vals.
Proof.
  unfold prep_values. induction 1 as [|x vals Hx _ IH]; [done|].
  by rewrite fmap_cons, (finite_no_infinity x Hx), IH.
Qed.

(** One round that meets an observation while the mean is a number. *)
Lemma ewm_loop_round a w ow nobs cur rest :
  (w =? w)%float = true → (cur =? cur)%float = true →
  ewm_loop 1 true false a w ow nobs (cur :: rest)
  = ema_step a ow w cur
    :: ewm_loop 1 true false a (ema_step a ow w cur) (ow * (1 - a) + 1)%float
         (S nobs) rest.
Proof.
  intros Hw Hcur. cbn [ewm_loop]. rewrite Hw, Hcur. cbn.
  unfold ema_step. by destruct (w =? cur)%float.
Qed.

Lemma ewm_loop_regular a rest : ∀ w ow nobs (k t : nat) x,
  ow = old_weight a k →
  rest !! t = Some x →
  Forall (λ v, is_nan v = false) (take (S t) rest) →
  Forall (λ v, is_nan v = false)
    (take (S t) (w :: ewm_loop 1 true false a w ow nobs rest)) →
  ∃ e e',
    (w :: ewm_loop 1 true false a w ow nobs rest) !! t = Some e ∧
    (w :: ewm_loop 1 true false a w ow nobs rest) !! S t = Some e' ∧
    e' = ema_step a (old_weight a (k + t)) e x.
Proof.
  induction rest as [|cur rest IH]; intros w ow nobs k t x How Hx Hin Hout;
    [done|].
  assert ((w =? w)%float = true) as Hw.
  { apply no_nan_eqb. cbn in Hout. by apply Forall_cons in Hout as [Hout _]. }
  assert ((cur =? cur)%float = true) as Hcur.
  { apply no_nan_eqb. cbn in Hin. by apply Forall_cons in Hin as [Hin _]. }
  rewrite (ewm_loop_round a w ow nobs cur rest Hw Hcur) in *.
  destruct t as [|t].
  - injection Hx as ->. exists w, (ema_step a ow w x).
    split; [done|]. split; [done|]. by rewrite Nat.add_0_r, How.
  - cbn in Hx.
    change (take (S (S t)) (cur :: rest)) with (cur :: take (S t) rest) in Hin.
    apply Forall_cons in Hin as [_ Hin].
    change (take (S (S t)) (w :: ?l)) with (w :: take (S t) l) in Hout.
    apply Forall_cons in Hout as [_ Hout].
    destruct (IH (ema_step a ow w cur) (ow * (1 - a) + 1)%float (S nobs) (S k) t x)
      as (e & e' & He & He' & Hrec); [by rewrite How|done..|].
    exists e, e'. split; [exact He|]. split; [exact He'|].
    by replace (k + S t)%nat with (S k + t)%nat by lia.
Qed.

(** The mean of a span over a finite column, row by row. *)
Lemma ewm_span_pointwise w close (t : nat) x :
  Forall (λ v, is_finite v = true) close →
  close !! S t = Some x →
  Forall (λ v, is_nan v = false) (take (S t) (ewm_span w close)) →
  ∃ e e',
    ewm_span w close !! t = Some e ∧
    ewm_span w close !! S t = Some e' ∧
    e' = ema_step (smoothing w) (old_weight (smoothing w) t) e x.
Proof.
  intros Hfin Hx Hout. unfold ewm_span in *.
  rewrite (prep_values_finite close Hfin) in *.
  destruct close as [|x0 rest]; [done|]. cbn in Hx.
  apply Forall_cons in Hfin as [Hx0 Hrest].
  cbn [ewm] in *. rewrite (no_nan_eqb x0 (finite_no_nan x0 Hx0)) in *.
  cbn [Nat.leb] in *.
  apply (ewm_loop_regular (smoothing w) rest x0 1%float 1%nat 0%nat t x);
    [done|done| |exact Hout].
  apply Forall_take. eapply Forall_impl; [exact Hrest|]. apply finite_no_nan.
Qed.

End Ewm.

(** ** The indicator columns *)

Section Indicators.

Lemma col_ema_not_close w : col_ema w ≠ "close".
Proof.
  intros H. cbv [col_ema String.append] in H. discriminate H.
Qed.

Global Instance col_ema_inj : Inj (=) (=) col_ema.
Proof. intros w1 w2 H. unfold col_ema in H. by apply (inj _), (inj pretty) in H. Qed.

Lemma ema_names :
  col_ema <$> intervals
  = ["ema_9"; "ema_12"; "ema_21"; "ema_30"; "ema_50"; "ema_80"; "ema_100"; "ema_200"].
Proof. by vm_compute. Qed.

Lemma intervals_positive : Forall (λ w, 1 ≤ w) intervals.
Proof. unfold intervals. repeat constructor; lia. Qed.

Lemma calc_ema_run data close w :
  df_columns data !! "close" = Some close →
  1 ≤ w →
  calc_ema data w
  = Ok (mkSeries (df_index data) (ewm_span w close)).
Proof.
  intros Hclose Hw. unfold calc_ema, getitem. rewrite Hclose. cbn.
  unfold ewm_mean, get_center_of_mass.
  by assert ((w <? 1) = false) as -> by (apply Z.ltb_ge; lia).
Qed.

(** The span check is pandas' own: below 1, [ewm] raises. *)
Lemma calc_ema_bad_span data w :
  w < 1 → raises (calc_ema data w).
Proof.
  intros Hw. unfold calc_ema, getitem.
  destruct (df_columns data !! "close"); cbn; [|by eexists].
  unfold ewm_mean, get_center_of_mass.
  assert ((w <? 1) = true) as -> by (apply Z.ltb_lt; lia). by eexists.
Qed.

(** The series [calc_ema] returns carries the table's own index, so storing
    it never has to re-label it. *)
Lemma calc_ema_index data w s :
  calc_ema data w = Ok s → s_index s = df_index data.
Proof.
  unfold calc_ema, getitem. destruct (df_columns data !! "close"); [|done].
  cbn. unfold ewm_mean. destruct (get_center_of_mass w); [|done].
  cbn. by intros [= <-].
Qed.

Lemma init_loop_run ws : ∀ data close,
  df_columns data !! "close" = Some close →
  Forall (λ w, 1 ≤ w) ws →
  init_loop data ws
  = Ok (mkDataFrame (df_index data) (with_ema close (df_columns data) ws)).
Proof.
  induction ws as [|w ws IH]; intros data close Hclose Hws.
  - by destruct data.
  - apply Forall_cons in Hws as [Hw Hws].
    cbn [init_loop]. rewrite (calc_ema_run data close w Hclose Hw). cbn.
    unfold setitem. cbn. rewrite bool_decide_eq_true_2 by done. cbn.
    rewrite (IH _ close); [done| |done].
    cbn. rewrite lookup_insert_ne; [done|]. apply col_ema_not_close.
Qed.

Lemma with_ema_other close ws : ∀ cols c,
  c ∉ col_ema <$> ws → with_ema close cols ws !! c = cols !! c.
Proof.
  induction ws as [|w ws IH]; intros cols c Hc; [done|].
  cbn in Hc. apply not_elem_of_cons in Hc as [Hne Hc].
  unfold with_ema in *. cbn. rewrite IH by done.
  by rewrite lookup_insert_ne.
Qed.

Lemma with_ema_lookup close ws : ∀ cols w,
  w ∈ ws →
  with_ema close cols ws !! col_ema w
  = Some (ewm_span w close).
Proof.
  induction ws as [|w0 ws IH]; intros cols w Hw.
  - by apply elem_of_nil in Hw.
  - destruct (decide (w ∈ ws)) as [Hin|Hnin].
    + unfold with_ema in *. cbn. by apply IH.
    + apply elem_of_cons in Hw as [->|Hw]; [|done].
      change (with_ema close cols (w0 :: ws))
        with (with_ema close
                (<[col_ema w0 := ewm_span w0 close]> cols) ws).
      rewrite with_ema_other.
      * by rewrite lookup_insert_eq.
      * intros Hc. apply list_elem_of_fmap in Hc as (w' & Heq & Hw').
        apply (inj col_ema) in Heq. by subst.
Qed.

Lemma with_ema_dom close ws : ∀ cols,
  dom (with_ema close cols ws) = dom cols ∪ list_to_set (col_ema <$> ws).
Proof.
  induction ws as [|w ws IH]; intros cols.
  - cbn. by rewrite (right_id_L ∅ (∪)).
  - change (with_ema close cols (w :: ws))
      with (with_ema close
              (<[col_ema w := ewm_span w close]> cols) ws).
    rewrite IH, dom_insert_L. cbn.
    by rewrite (comm_L (∪) {[col_ema w]} (dom cols)), <- (assoc_L (∪)).
Qed.

Lemma price_columns_not_ema c :
  c ∈ ["open"; "high"; "low"; "close"] → c ∉ col_ema <$> intervals.
Proof.
  rewrite ema_names. intros Hc Hc'.
  repeat (apply elem_of_cons in Hc as [->|Hc];
          [by apply (bool_decide_pack _) in Hc'; vm_compute in Hc'|]).
  by apply elem_of_nil in Hc.
Qed.

End Indicators.

(** C1, as the code has it.  For a close column of finite values, of length
    at least 1, and a configured span [w], the column [ema_w] starts at
    [close[0]], and for [t > 0], as long as none of [ema[0..t-1]] is NaN,
    [ema[t]] is [(W * ema[t-1] + 1 * close[t]) / (W + 1)] computed in floats
    ([ema[t-1]] itself when that equals [close[t]]), where
    [W = old_wt * (1 - alpha)] and [old_wt] is the weight carried so far, 1
    at first and [old_wt * (1 - alpha) + 1] after each row: the new close
    weighs [1 / (W + 1)], not the constant [alpha].  The equality is that of
    the floats, with no tolerance needed. *)
Theorem ema_adjusted_recurrence (data : DataFrame) (close : list float) (w : Z) :
  df_columns data !! "close" = Some close →
  close ≠ [] →
  w ∈ intervals →
  Forall (λ x, is_finite x = true) close →
  ∃ data' ema,
    TechnicalIndicator data = Ok data' ∧
    df_columns data' !! col_ema w = Some ema ∧
    ema !! 0%nat = close !! 0%nat ∧
    ∀ (t : nat) x,
      close !! S t = Some x →
      ∃ e e',
        ema !! t = Some e ∧ ema !! S t = Some e' ∧
        (Forall (λ v, is_nan v = false) (take (S t) ema) →
         e' = ema_step (smoothing w) (old_weight (smoothing w) t) e x).
Proof.
  intros Hclose Hne Hw Hfin.
  exists (mkDataFrame (df_index data) (with_ema close (df_columns data) intervals)),
         (ewm_span w close).
  split.
  { apply (init_loop_run intervals data close Hclose intervals_positive). }
  cbn [df_columns]. split; [by apply with_ema_lookup|].
  split.
  { destruct close as [|x0 rest]; [done|].
    apply Forall_cons in Hfin as [Hx0 Hrest].
    unfold ewm_span. rewrite prep_values_finite by by constructor.
    cbn [ewm]. by rewrite (no_nan_eqb x0 (finite_no_nan x0 Hx0)). }
  intros t x Hx.
  assert (is_Some (ewm_span w close !! t)) as [e He].
  { apply lookup_lt_is_Some. rewrite ewm_span_length.
    apply lookup_lt_Some in Hx. lia. }
  assert (is_Some (ewm_span w close !! S t)) as [e' He'].
  { apply lookup_lt_is_Some. rewrite ewm_span_length.
    by apply lookup_lt_Some in Hx. }
  exists e, e'. split; [exact He|]. split; [exact He'|].
  intros Hout.
  destruct (ewm_span_pointwise w close t x Hfin Hx Hout)
    as (e0 & e0' & He0 & He0' & Hrec).
  congruence.
Qed.

Lemma ema_adjusted_recurrence_witness :
  df_columns sample_prices !! "close" = Some [11; 12; 13; 14]%float ∧
  [11; 12; 13; 14]%float ≠ [] ∧
  9 ∈ intervals ∧
  Forall (λ x, is_finite x = true) [11; 12; 13; 14]%float ∧
  ∃ data' ema,
    TechnicalIndicator sample_prices = Ok data' ∧
    df_columns data' !! col_ema 9 = Some ema ∧
    ema !! 0%nat = [11; 12; 13; 14]%float !! 0%nat ∧
    ∀ (t : nat) x,
      [11; 12; 13; 14]%float !! S t = Some x →
      ∃ e e',
        ema !! t = Some e ∧ ema !! S t = Some e' ∧
        (Forall (λ v, is_nan v = false) (take (S t) ema) →
         e' = ema_step (smoothing 9) (old_weight (smoothing 9) t) e x).
Proof.
  assert (df_columns sample_prices !! "close" = Some [11; 12; 13; 14]%float) as Hc
    by reflexivity.
  assert ([11; 12; 13; 14]%float ≠ []) as Hne by discriminate.
  assert (9 ∈ intervals) as Hw by (unfold intervals; set_solver).
  assert (Forall (λ x, is_finite x = true) [11; 12; 13; 14]%float) as Hfin
    by (repeat constructor).
  split; [exact Hc|]. split; [exact Hne|]. split; [exact Hw|].
  split; [exact Hfin|].
  exact (ema_adjusted_recurrence sample_prices _ 9 Hc Hne Hw Hfin).
Defined.

(** C1, as the specification words it, fails on the sample table: the second
    value of [ema_9] is about 11.556, while the plain recurrence gives
    [11.2]. *)
Lemma ema_recurrence_counterexample :
  ∃ data' ema,
    TechnicalIndicator sample_prices = Ok data' ∧
    df_columns data' !! col_ema 9 = Some ema ∧
    Forall (λ v, is_nan v = false) ema ∧
    ¬ conventional_recurrence 9 [11; 12; 13; 14]%float ema.
Proof.
  eexists _, _. split; [by vm_compute|]. split; [by vm_compute|].
  split; [by_evaluation|].
  intros [_ Hrec].
  specialize (Hrec 0%nat _ _ _ eq_refl eq_refl eq_refl).
  vm_compute in Hrec. discriminate Hrec.
Qed.

(** C4.  Every indicator series has the index of the close series it was
    computed from, and as many values: this holds for whatever [calc_ema]
    returns, and for each configured span it is returned and is the series
    read back from the table under [ema_w]. *)
Theorem indicator_alignment (data : DataFrame) (close : Series) :
  getitem data "close" = Ok close →
  (∀ w s, calc_ema data w = Ok s →
          s_index s = s_index close ∧
          length (s_values s) = length (s_values close)) ∧
  (∀ w, w ∈ intervals →
        ∃ s data',
          calc_ema data w = Ok s ∧
          TechnicalIndicator data = Ok data' ∧
          getitem data' (col_ema w) = Ok s).
Proof.
  unfold getitem. destruct (df_columns data !! "close") as [v|] eqn:Hclose; [|done].
  intros [= <-]. cbn [s_index s_values]. split.
  - intros w s. unfold calc_ema, getitem. rewrite Hclose. cbn.
    unfold ewm_mean. destruct (get_center_of_mass w); [|done].
    cbn. intros [= <-]. cbn [s_index s_values]. split; [done|].
    unfold prep_values. by rewrite ewm_length, length_fmap.
  - intros w Hw.
    assert (1 ≤ w) as Hw1
      by by eapply (proj1 (Forall_forall _ _) intervals_positive).
    eexists _, _. split; [by apply calc_ema_run|].
    split; [by apply init_loop_run, intervals_positive|].
    unfold getitem. cbn [df_index df_columns]. by rewrite with_ema_lookup.
Qed.

Lemma indicator_alignment_witness :
  ∃ close,
    getitem sample_prices "close" = Ok close ∧
    (∀ w s, calc_ema sample_prices w = Ok s →
            s_index s = s_index close ∧
            length (s_values s) = length (s_values close)) ∧
    (∀ w, w ∈ intervals →
          ∃ s data',
            calc_ema sample_prices w = Ok s ∧
            TechnicalIndicator sample_prices = Ok data' ∧
            getitem data' (col_ema w) = Ok s).
Proof.
  eexists. split; [reflexivity|].
  exact (indicator_alignment sample_prices _ eq_refl).
Defined.

(** C7.  Building the indicators on a table that has a close column leaves
    the index and the open, high, low and close columns as they were, and
    every other column that is not named [ema_w] too; the columns afterwards
    are the old ones and the [ema_w]. *)
Theorem indicators_frame (data : DataFrame) (close : list float) :
  df_columns data !! "close" = Some close →
  ∃ data',
    TechnicalIndicator data = Ok data' ∧
    df_index data' = df_index data ∧
    (∀ c, c ∈ ["open"; "high"; "low"; "close"] →
          df_columns data' !! c = df_columns data !! c) ∧
    (∀ c, c ∉ col_ema <$> intervals →
          df_columns data' !! c = df_columns data !! c) ∧
    dom (df_columns data')
    = dom (df_columns data) ∪ list_to_set (col_ema <$> intervals).
Proof.
  intros Hclose. eexists. split.
  { by apply init_loop_run, intervals_positive. }
  cbn [df_index df_columns]. split; [done|].
  split; [|split].
  - intros c Hc. by apply with_ema_other, price_columns_not_ema.
  - intros c Hc. by apply with_ema_other.
  - apply with_ema_dom.
Qed.

Lemma indicators_frame_witness :
  df_columns sample_prices !! "close" = Some [11; 12; 13; 14]%float ∧
  ∃ data',
    TechnicalIndicator sample_prices = Ok data' ∧
    df_index data' = df_index sample_prices ∧
    (∀ c, c ∈ ["open"; "high"; "low"; "close"] →
          df_columns data' !! c = df_columns sample_prices !! c) ∧
    (∀ c, c ∉ col_ema <$> intervals →
          df_columns data' !! c = df_columns sample_prices !! c) ∧
    dom (df_columns data')
    = dom (df_columns sample_prices) ∪ list_to_set (col_ema <$> intervals).
Proof.
  split; [reflexivity|].
  exact (indicators_frame sample_prices _ eq_refl).
Defined.

(** C8.  On the empty price series, that is no rows and an empty close
    column, the indicators are built without error and every [ema_w] is the
    empty series. *)
Theorem empty_series_indicators (data : DataFrame) :
  df_index data = [] →
  df_columns data !! "close" = Some [] →
  ∃ data',
    TechnicalIndicator data = Ok data' ∧
    ∀ w, w ∈ intervals → getitem data' (col_ema w) = Ok (mkSeries [] []).
Proof.
  intros Hidx Hclose. eexists. split.
  { by apply init_loop_run, intervals_positive. }
  intros w Hw. unfold getitem. cbn [df_index df_columns].
  by rewrite with_ema_lookup, Hidx.
Qed.

Lemma empty_series_indicators_witness :
  df_index empty_prices = [] ∧
  df_columns empty_prices !! "close" = Some [] ∧
  ∃ data',
    TechnicalIndicator empty_prices = Ok data' ∧
    ∀ w, w ∈ intervals → getitem data' (col_ema w) = Ok (mkSeries [] []).
Proof.
  split; [reflexivity|]. split; [reflexivity|].
  exact (empty_series_indicators empty_prices eq_refl eq_refl).
Defined.

(** ** The query *)

Section Query.

Lemma add_traces_spec year_data cols : ∀ i acc,
  match add_traces year_data i cols acc with
  | Ok r => ∃ ts, r = acc ++ ts ∧ Forall2 (trace_for year_data) cols ts
  | Raise e => ∃ c, e = KeyError c ∧ c ∈ cols ∧ df_columns year_data !! c = None
  end.
Proof.
  induction cols as [|c cols IH]; intros i acc.
  - cbn. exists []. by rewrite app_nil_r.
  - cbn [add_traces]. unfold getitem.
    destruct (df_columns year_data !! c) as [v|] eqn:Hc; cbn.
    + match goal with
      | |- context [add_traces _ _ _ ?acc'] =>
          specialize (IH (S i) acc');
          destruct (add_traces year_data (S i) cols acc') as [r|e]
      end.
      * destruct IH as (ts & -> & Hts). eexists (_ :: ts).
        split; [by rewrite <- app_assoc|].
        constructor; [|done]. by repeat split.
      * destruct IH as (c' & -> & Hc' & Hnone). exists c'.
        split; [done|]. split; [by right|done].
    + exists c. split; [done|]. split; [by left|done].
Qed.

Lemma Forall2_trace_names year_data cols ts :
  Forall2 (trace_for year_data) cols ts → sc_name <$> ts = cols.
Proof.
  induction 1 as [|c tr cols ts [Hn _] _ IH]; [done|]. cbn. by rewrite Hn, IH.
Qed.

Lemma Forall2_trace_present year_data cols ts c :
  Forall2 (trace_for year_data) cols ts → c ∈ cols →
  is_Some (df_columns year_data !! c).
Proof.
  induction 1 as [|c0 tr cols ts (_ & _ & Hy) _ IH]; intros Hc.
  - by apply elem_of_nil in Hc.
  - apply elem_of_cons in Hc as [->|Hc]; [by eexists|by apply IH].
Qed.

(** What a returned figure shows. *)
Lemma display_candlestick_inv sd dark sel yr fig cls :
  display_candlestick sd dark sel yr = Ok (fig, cls) →
  ∃ year_data,
    sd !! data_key yr = Some year_data ∧
    Forall2 (trace_for year_data) (take 5 sel) (fig_traces fig).
Proof.
  unfold display_candlestick.
  destruct (sd !! data_key yr) as [yd|]; [|done]. cbn.
  destruct (getattr yd "open"); [|done]. cbn.
  destruct (getattr yd "high"); [|done]. cbn.
  destruct (getattr yd "low"); [|done]. cbn.
  destruct (getattr yd "close"); [|done]. cbn.
  pose proof (add_traces_spec yd (take 5 sel) 0 []) as Hspec.
  destruct (add_traces yd 0 (take 5 sel) []) as [r|e]; [|done]. cbn.
  destruct Hspec as (ts & -> & Hts).
  intros Hret. exists yd. split; [done|].
  by destruct (bool_decide ("dark" ∈ dark)); injection Hret as <- _.
Qed.

(** When the year is stored with its four price columns and the first five
    names are columns, a figure is returned. *)
Lemma display_candlestick_run sd dark sel yr year_data :
  sd !! data_key yr = Some year_data →
  Forall (λ c, is_Some (df_columns year_data !! c))
    (["open"; "high"; "low"; "close"] ++ take 5 sel) →
  ∃ fig cls, display_candlestick sd dark sel yr = Ok (fig, cls).
Proof.
  intros Hyr Hcols. unfold display_candlestick. rewrite Hyr. cbn.
  apply Forall_app in Hcols as [Hprice Hsel].
  apply Forall_cons in Hprice as [[o Ho] Hprice].
  apply Forall_cons in Hprice as [[h Hh] Hprice].
  apply Forall_cons in Hprice as [[l Hl] Hprice].
  apply Forall_cons in Hprice as [[c Hc] _].
  unfold getattr. rewrite Ho, Hh, Hl, Hc. cbn.
  pose proof (add_traces_spec year_data (take 5 sel) 0 []) as Hspec.
  destruct (add_traces year_data 0 (take 5 sel) []) as [r|e]; cbn.
  - destruct (bool_decide ("dark" ∈ dark)); by eexists _, _.
  - destruct Hspec as (c' & _ & Hc' & Hnone).
    apply (proj1 (Forall_forall _ _) Hsel) in Hc'.
    rewrite Hnone in Hc'. by destruct Hc'.
Qed.

(** An unknown year label, or a missing column among the first five names,
    ends the call with an exception. *)
Lemma display_candlestick_unknown_year sd dark sel yr :
  sd !! data_key yr = None →
  display_candlestick sd dark sel yr = Raise (KeyError (data_key yr)).
Proof. intros Hyr. unfold display_candlestick. by rewrite Hyr. Qed.

Lemma display_candlestick_unknown_column sd dark sel yr year_data c :
  sd !! data_key yr = Some year_data →
  c ∈ take 5 sel →
  df_columns year_data !! c = None →
  raises (display_candlestick sd dark sel yr).
Proof.
  intros Hyr Hc Hnone.
  destruct (display_candlestick sd dark sel yr) as [[fig cls]|e] eqn:Hrun;
    [|by eexists].
  apply display_candlestick_inv in Hrun as (yd & Hyd & Hts).
  assert (yd = year_data) as -> by congruence.
  destruct (Forall2_trace_present _ _ _ c Hts Hc) as [v Hv]. congruence.
Qed.

End Query.

(** ** From the loaded table to the stored partitions *)

Section Startup.

Lemma years_in_range : Forall (λ y, 1678 ≤ y ≤ 2261) years.
Proof. unfold years. repeat constructor; lia. Qed.

Lemma loc_slice_dom df since till p :
  loc_slice df since till = Ok p → dom (df_columns p) = dom (df_columns df).
Proof.
  unfold loc_slice. destruct (is_monotonic_increasing (df_index df)).
  - intros [= <-]. cbn. apply dom_fmap_L.
  - destruct (existsb (ts_eqb since) (df_index df)
              && existsb (ts_eqb till) (df_index df)); [|done].
    intros [= <-]. cbn. apply dom_fmap_L.
Qed.

Lemma partition_dom data y p :
  partition data y = Ok p → dom (df_columns p) = dom (df_columns data).
Proof.
  unfold partition. destruct (slice_bounds y) as [[since till]|]; [|done].
  cbn. apply loc_slice_dom.
Qed.

Lemma TechnicalIndicator_inv df df' :
  TechnicalIndicator df = Ok df' →
  ∃ close,
    df_columns df !! "close" = Some close ∧
    df' = mkDataFrame (df_index df) (with_ema close (df_columns df) intervals).
Proof.
  intros Hrun.
  destruct (df_columns df !! "close") as [close|] eqn:Hclose.
  - exists close. split; [done|].
    unfold TechnicalIndicator in Hrun.
    rewrite (init_loop_run intervals df close Hclose intervals_positive) in Hrun.
    by injection Hrun.
  - unfold TechnicalIndicator, intervals in Hrun. cbn [init_loop] in Hrun.
    unfold calc_ema, getitem in Hrun. by rewrite Hclose in Hrun.
Qed.

Lemma startup_inv df sd :
  startup df = Ok sd →
  ∃ df', TechnicalIndicator df = Ok df' ∧ split_loop df' years ∅ = Ok sd.
Proof.
  unfold startup. destruct (TechnicalIndicator df) as [df'|]; [|done].
  unfold split_by_intervals, TimeSeriesSplit_init. cbn -[split_loop years].
  destruct (split_loop df' years ∅) as [sd'|] eqn:Hloop; [|done].
  intros [= <-]. by exists df'.
Qed.

Lemma startup_run df close :
  df_columns df !! "close" = Some close →
  is_monotonic_increasing (df_index df) = true →
  ∃ sd, startup df = Ok sd.
Proof.
  intros Hclose Hmono. unfold startup, TechnicalIndicator.
  rewrite (init_loop_run intervals df close Hclose intervals_positive).
  cbn -[split_by_intervals years with_ema].
  destruct (split_by_intervals_runs
              (mkDataFrame (df_index df) (with_ema close (df_columns df) intervals))
              Hmono years years_in_range) as (sd & _ & ->).
  by exists sd.
Qed.

(** The stored partitions are those of the configured years, and each has
    the columns of the loaded table and the [ema_w]. *)
Lemma startup_lookup df sd yr year_data :
  startup df = Ok sd →
  sd !! data_key yr = Some year_data →
  (∃ y, y ∈ years ∧ yr = pretty y) ∧
  dom (df_columns year_data)
  = dom (df_columns df) ∪ list_to_set (col_ema <$> intervals).
Proof.
  intros Hrun Hyr.
  apply startup_inv in Hrun as (df' & Hind & Hloop).
  destruct (split_loop_lookup _ _ _ _ _ Hloop Hyr) as (y & Hy & Hkey & Hp).
  apply (inj data_key) in Hkey. split; [by exists y|].
  rewrite (partition_dom _ _ _ Hp).
  apply TechnicalIndicator_inv in Hind as (close & _ & ->).
  cbn [df_columns]. apply with_ema_dom.
Qed.

Lemma startup_unknown_year df sd yr :
  startup df = Ok sd →
  (∀ y, y ∈ years → yr ≠ pretty y) →
  sd !! data_key yr = None.
Proof.
  intros Hrun Hyr.
  destruct (sd !! data_key yr) as [yd|] eqn:Hlook; [|done].
  destruct (startup_lookup _ _ _ _ Hrun Hlook) as [(y & Hy & ->) _].
  by destruct (Hyr y Hy).
Qed.

Lemma startup_stored df sd y :
  startup df = Ok sd → y ∈ years →
  ∃ p, sd !! data_key (pretty y) = Some p.
Proof.
  intros Hrun Hy. apply startup_inv in Hrun as (df' & _ & Hloop).
  destruct (split_loop_spec _ _ _ _ Hloop) as [Hstored _].
  destruct (Hstored y Hy) as (p & _ & Hp). by exists p.
Qed.

(** A query for a configured year whose price columns and first five names
    are columns of the loaded table, or [ema_w] names, returns a figure. *)
Lemma startup_query_runs df sd dark sel y :
  startup df = Ok sd → y ∈ years →
  Forall (λ c, c ∈ dom (df_columns df) ∨ c ∈ col_ema <$> intervals)
    (["open"; "high"; "low"; "close"] ++ take 5 sel) →
  ∃ year_data fig cls,
    sd !! data_key (pretty y) = Some year_data ∧
    display_candlestick sd dark sel (pretty y) = Ok (fig, cls).
Proof.
  intros Hrun Hy Hcols.
  destruct (startup_stored _ _ _ Hrun Hy) as (yd & Hyd).
  destruct (startup_lookup _ _ _ _ Hrun Hyd) as [_ Hdom].
  destruct (display_candlestick_run sd dark sel (pretty y) yd Hyd)
    as (fig & cls & Hfig).
  - eapply Forall_impl; [exact Hcols|]. intros c Hc.
    apply elem_of_dom. rewrite Hdom. set_solver.
  - by exists yd, fig, cls.
Qed.

Lemma sample_columns :
  dom (df_columns sample_prices) = list_to_set ["open"; "high"; "low"; "close"].
Proof. cbn. rewrite !dom_insert_L. set_solver. Qed.

Lemma sample_startup : ∃ sd, startup sample_prices = Ok sd.
Proof. by apply (startup_run sample_prices [11; 12; 13; 14]%float). Qed.

Lemma sample_query_columns sel :
  Forall (λ c, c ∈ ["open"; "high"; "low"; "close"] ++ (col_ema <$> intervals)) sel →
  Forall (λ c, c ∈ dom (df_columns sample_prices) ∨ c ∈ col_ema <$> intervals)
    (["open"; "high"; "low"; "close"] ++ take 5 sel).
Proof.
  intros Hsel. rewrite sample_columns. apply Forall_app. split.
  - repeat constructor; left; set_solver.
  - apply Forall_take. eapply Forall_impl; [exact Hsel|].
    intros c Hc. apply elem_of_app in Hc as [Hc|Hc]; [left|by right].
    by apply elem_of_list_to_set.
Qed.

End Startup.

(** C5.  Whatever the number of requested names, a figure that is returned
    carries one trace per name among the first five, in the order given, each
    plotting that column of the year's partition; with more than five names
    requested it carries exactly five.  The query is a function of the stored
    partitions and its arguments, which it only reads, so the same request
    gives the same figure. *)
Theorem truncation_first_five (sd : gmap string DataFrame)
    (dark sel : list string) (yr : string) (fig : Figure) (cls : string) :
  display_candlestick sd dark sel yr = Ok (fig, cls) →
  sc_name <$> fig_traces fig = take 5 sel ∧
  ((5 < length sel)%nat → length (fig_traces fig) = 5%nat) ∧
  ∃ year_data,
    sd !! data_key yr = Some year_data ∧
    Forall2 (trace_for year_data) (take 5 sel) (fig_traces fig).
Proof.
  intros Hrun.
  apply display_candlestick_inv in Hrun as (yd & Hyd & Hts).
  pose proof (Forall2_trace_names _ _ _ Hts) as Hnames.
  split; [done|]. split; [|by exists yd].
  intros Hlen. apply Forall2_length in Hts. rewrite <- Hts, length_take. lia.
Qed.

Lemma truncation_first_five_witness :
  ∃ sd fig cls,
    startup sample_prices = Ok sd ∧
    display_candlestick sd [] seven_names "2020" = Ok (fig, cls) ∧
    sc_name <$> fig_traces fig = ["ema_9"; "ema_12"; "ema_21"; "ema_30"; "ema_50"] ∧
    length (fig_traces fig) = 5%nat.
Proof.
  destruct sample_startup as [sd Hsd].
  destruct (startup_query_runs sample_prices sd [] seven_names 2020 Hsd)
    as (yd & fig & cls & _ & Hrun).
  - by_evaluation.
  - apply sample_query_columns. rewrite ema_names. by_evaluation.
  - change (pretty 2020) with "2020" in Hrun.
    exists sd, fig, cls. split; [exact Hsd|]. split; [exact Hrun|].
    destruct (truncation_first_five sd [] seven_names "2020" fig cls Hrun)
      as (Hnames & Hlen & _).
    split; [exact Hnames|]. apply Hlen. cbn. lia.
Defined.

(** C10.  When the year is stored with its price columns and the first five
    requested names are columns of it, the query returns a figure with those
    five traces whatever names follow: it is the very result of the request
    cut after the fifth name. *)
Theorem unknown_beyond_cap_ignored (sd : gmap string DataFrame)
    (dark : list string) (yr : string) (year_data : DataFrame)
    (first5 rest : list string) :
  sd !! data_key yr = Some year_data →
  Forall (λ c, is_Some (df_columns year_data !! c))
    (["open"; "high"; "low"; "close"] ++ first5) →
  length first5 = 5%nat →
  ∃ fig cls,
    display_candlestick sd dark (first5 ++ rest) yr = Ok (fig, cls) ∧
    display_candlestick sd dark first5 yr = Ok (fig, cls) ∧
    sc_name <$> fig_traces fig = first5.
Proof.
  intros Hyr Hcols Hlen.
  assert (take 5 (first5 ++ rest) = first5) as Hcut
    by by apply take_app_length'.
  assert (take 5 first5 = first5) as Hall by (apply take_ge; lia).
  destruct (display_candlestick_run sd dark (first5 ++ rest) yr year_data Hyr)
    as (fig & cls & Hrun); [by rewrite Hcut|].
  exists fig, cls. split; [done|].
  split.
  - rewrite <- Hrun. unfold display_candlestick. by rewrite Hcut, Hall.
  - apply display_candlestick_inv in Hrun as (yd & _ & Hts).
    apply Forall2_trace_names in Hts. by rewrite Hts.
Qed.

Lemma unknown_beyond_cap_ignored_witness :
  ∃ sd year_data fig cls,
    startup sample_prices = Ok sd ∧
    sd !! data_key "2020" = Some year_data ∧
    df_columns year_data !! "ema_999" = None ∧
    display_candlestick sd [] five_then_unknown "2020" = Ok (fig, cls) ∧
    sc_name <$> fig_traces fig = ["ema_9"; "ema_12"; "ema_21"; "ema_30"; "ema_50"].
Proof.
  destruct sample_startup as [sd Hsd].
  destruct (startup_stored sample_prices sd 2020 Hsd) as [yd Hyd];
    [by_evaluation|].
  change (pretty 2020) with "2020" in Hyd.
  destruct (startup_lookup _ _ _ _ Hsd Hyd) as [_ Hdom].
  assert (df_columns yd !! "ema_999" = None) as Hnone.
  { apply not_elem_of_dom. rewrite Hdom, sample_columns, ema_names.
    by_evaluation. }
  destruct (unknown_beyond_cap_ignored sd [] "2020" yd
              ["ema_9"; "ema_12"; "ema_21"; "ema_30"; "ema_50"] ["ema_999"] Hyd)
    as (fig & cls & Hrun & _ & Hnames).
  - apply Forall_forall. intros c Hc. apply elem_of_dom.
    rewrite Hdom, sample_columns, ema_names.
    revert c Hc. apply Forall_forall. by_evaluation.
  - reflexivity.
  - exists sd, yd, fig, cls. repeat split; assumption.
Defined.

(** C6, as the code has it.  With the partitions the program stores for a
    loaded table: a year label that is not the decimal form of a configured
    year ends the query with a [KeyError]; a name among the first five
    requested that is neither a column of the loaded table nor one of the
    [ema_w] ends it with an exception too. *)
Theorem invalid_query_raises (df : DataFrame) (sd : gmap string DataFrame)
    (dark sel : list string) (yr : string) :
  startup df = Ok sd →
  ((∀ y, y ∈ years → yr ≠ pretty y) →
   display_candlestick sd dark sel yr = Raise (KeyError (data_key yr))) ∧
  (∀ c, c ∈ take 5 sel → c ∉ dom (df_columns df) → c ∉ col_ema <$> intervals →
        raises (display_candlestick sd dark sel yr)).
Proof.
  intros Hrun. split.
  - intros Hyr. apply display_candlestick_unknown_year.
    by eapply startup_unknown_year.
  - intros c Hc Hcol Hema.
    destruct (sd !! data_key yr) as [yd|] eqn:Hlook.
    + destruct (startup_lookup _ _ _ _ Hrun Hlook) as [_ Hdom].
      eapply display_candlestick_unknown_column; [done..|].
      apply not_elem_of_dom. rewrite Hdom, not_elem_of_union, elem_of_list_to_set.
      by split.
    + eexists. by apply display_candlestick_unknown_year.
Qed.

Lemma invalid_query_raises_witness :
  ∃ sd,
    startup sample_prices = Ok sd ∧
    display_candlestick sd [] ["ema_9"] "1999" = Raise (KeyError "1999_data") ∧
    raises (display_candlestick sd [] ["ema_999"] "2020").
Proof.
  destruct sample_startup as [sd Hsd].
  exists sd. split; [exact Hsd|].
  split.
  - apply (proj1 (invalid_query_raises sample_prices sd [] ["ema_9"] "1999" Hsd)).
    apply Forall_forall. by_evaluation.
  - apply (proj2 (invalid_query_raises sample_prices sd [] ["ema_999"] "2020" Hsd)
             "ema_999").
    + by_evaluation.
    + rewrite sample_columns. by_evaluation.
    + rewrite ema_names. by_evaluation.
Defined.

(** C6, as the specification words it, fails: a sixth name that no column
    carries is requested, and the query returns a figure. *)
Lemma unknown_indicator_counterexample :
  ∃ sd r,
    startup sample_prices = Ok sd ∧
    "ema_999" ∈ five_then_unknown ∧
    ("ema_999" ∉ col_ema <$> intervals) ∧
    display_candlestick sd [] five_then_unknown "2020" = Ok r.
Proof.
  destruct sample_startup as [sd Hsd].
  destruct (startup_query_runs sample_prices sd [] five_then_unknown 2020 Hsd)
    as (yd & fig & cls & _ & Hrun).
  - by_evaluation.
  - apply (sample_query_columns ["ema_9"; "ema_12"; "ema_21"; "ema_30"; "ema_50"]).
    rewrite ema_names. by_evaluation.
  - exists sd, (fig, cls). split; [exact Hsd|].
    split; [by_evaluation|].
    split; [|exact Hrun].
    rewrite ema_names. by_evaluation.
Qed.

(** C9, as the code has it.  Nothing checks the configuration: the spans are
    the fixed list, all positive and pairwise distinct, and the years the
    fixed non-empty list; an empty year list gives an empty dictionary and
    no exception; a span below 1 handed to [calc_ema] is refused by pandas;
    and with the built-in lists a table with a close column and a monotonic
    index starts up without exception. *)
Theorem configuration_unchecked :
  (Forall (λ w, 1 ≤ w) intervals ∧ NoDup intervals ∧ years ≠ []) ∧
  (∀ data, split_by_intervals (TimeSeriesSplit_init data [])
           = Ok (mkTimeSeriesSplit data [] ∅, ∅)) ∧
  (∀ data w, w < 1 → raises (calc_ema data w)) ∧
  (∀ df close,
     df_columns df !! "close" = Some close →
     is_monotonic_increasing (df_index df) = true →
     ∃ sd, startup df = Ok sd).
Proof.
  split; [|split; [|split]].
  - split; [apply intervals_positive|]. split; [|done].
    apply (bool_decide_unpack _). by vm_compute.
  - done.
  - apply calc_ema_bad_span.
  - apply startup_run.
Qed.

(** C9, as the specification words it, fails: splitting over an empty year
    list raises nothing. *)
Lemma empty_year_list_counterexample :
  split_by_intervals (TimeSeriesSplit_init sample_prices [])
  = Ok (mkTimeSeriesSplit sample_prices [] ∅, ∅) ∧
  ¬ raises (split_by_intervals (TimeSeriesSplit_init sample_prices [])).
Proof. split; [done|]. by intros [e He]. Qed.

(** * Further properties *)

(** ** The menu toggle *)

(** X1.  The menu is shown after an odd number of clicks and hidden after an even
    number, so every click flips it; it starts hidden. *)
Theorem toggle_alternates (n_clicks : Z) :
  (toggle_indicator_menu n_clicks !! "display" = Some "block" ↔ Z.odd n_clicks = true) ∧
  (toggle_indicator_menu n_clicks !! "display" = Some "none" ↔ Z.even n_clicks = true) ∧
  toggle_indicator_menu (n_clicks + 1) !! "display"
  ≠ toggle_indicator_menu n_clicks !! "display" ∧
  toggle_indicator_menu (n_clicks + 2) = toggle_indicator_menu n_clicks.
Proof.
  assert (menu_shown !! "display" = Some "block") as Hshown by by vm_compute.
  assert (∀ n, toggle_indicator_menu n !! "display"
               = if Z.odd n then Some "block" else Some "none") as Hdisp.
  { intros n. unfold toggle_indicator_menu.
    rewrite Zmod_odd. destruct (Z.odd n).
    - exact Hshown.
    - change (0 =? 1) with false. cbv iota. by rewrite lookup_singleton_eq. }
  rewrite !Hdisp.
  split; [|split; [|split]].
  - destruct (Z.odd n_clicks); split; congruence.
  - rewrite <- Z.negb_odd. destruct (Z.odd n_clicks); cbn; split; congruence.
  - replace (n_clicks + 1) with (Z.succ n_clicks) by lia.
    rewrite Z.odd_succ, <- Z.negb_odd. destruct (Z.odd n_clicks); cbn; congruence.
  - unfold toggle_indicator_menu.
    assert ((n_clicks + 2) mod 2 = n_clicks mod 2) as ->; [|done].
    by rewrite <- (Z.mod_add n_clicks 1 2) by lia.
Qed.

(** ** More on the indicator columns *)

Section IndicatorsMore.

Lemma with_ema_idem close ws cols :
  with_ema close (with_ema close cols ws) ws = with_ema close cols ws.
Proof.
  apply map_eq. intros c.
  destruct (decide (c ∈ col_ema <$> ws)) as [Hc|Hc].
  - apply list_elem_of_fmap in Hc as (w & -> & Hw).
    by rewrite !with_ema_lookup.
  - by rewrite !with_ema_other.
Qed.

Lemma with_ema_aligned close ws cols n :
  length close = n →
  map_Forall (λ _ v, length v = n) cols →
  map_Forall (λ _ (v : list float), length v = n) (with_ema close cols ws).
Proof.
  intros Hclose. revert cols. induction ws as [|w ws IH]; intros cols Hcols; [done|].
  change (with_ema close cols (w :: ws))
    with (with_ema close
            (<[col_ema w := ewm_span w close]> cols) ws).
  apply IH. apply map_Forall_insert_2; [|done]. by rewrite ewm_span_length.
Qed.

End IndicatorsMore.

(** X4.  The indicators are built exactly when the table has a close column;
    without one the first lookup ends the construction with
    [KeyError('close')]. *)
Theorem indicators_need_close (data : DataFrame) :
  (TechnicalIndicator data = Raise (KeyError "close")
   ↔ df_columns data !! "close" = None) ∧
  ((∃ data', TechnicalIndicator data = Ok data')
   ↔ is_Some (df_columns data !! "close")).
Proof.
  destruct (df_columns data !! "close") as [close|] eqn:Hclose.
  - pose proof (init_loop_run intervals data close Hclose intervals_positive)
      as Hrun.
    unfold TechnicalIndicator. rewrite Hrun.
    split; [split; intros ?; discriminate|split; intros _; by eexists].
  - assert (TechnicalIndicator data = Raise (KeyError "close")) as Hrun.
    { unfold TechnicalIndicator, intervals. cbn [init_loop].
      unfold calc_ema, getitem. by rewrite Hclose. }
    rewrite Hrun.
    split; [by split|split; [intros [d Hd]|intros [v Hv]]; discriminate].
Qed.

(** X5.  Building the indicators a second time changes nothing: every [ema_w] is
    computed from the close column, which the first pass left as it was. *)
Theorem indicators_idempotent (data data' : DataFrame) :
  TechnicalIndicator data = Ok data' →
  TechnicalIndicator data' = Ok data'.
Proof.
  intros Hrun. apply TechnicalIndicator_inv in Hrun as (close & Hclose & ->).
  assert (df_columns
            (mkDataFrame (df_index data)
               (with_ema close (df_columns data) intervals)) !! "close"
          = Some close) as Hclose'.
  { cbn [df_columns]. rewrite with_ema_other; [done|].
    apply price_columns_not_ema. set_solver. }
  unfold TechnicalIndicator.
  rewrite (init_loop_run intervals _ close Hclose' intervals_positive).
  cbn [df_index df_columns]. by rewrite with_ema_idem.
Qed.

Lemma indicators_idempotent_witness :
  ∃ data',
    TechnicalIndicator sample_prices = Ok data' ∧
    TechnicalIndicator data' = Ok data'.
Proof.
  pose proof (init_loop_run intervals sample_prices _ eq_refl intervals_positive)
    as Hrun.
  eexists. split; [exact Hrun|].
  exact (indicators_idempotent sample_prices _ Hrun).
Defined.

(** ** More on the partitions *)

Section PartitionsMore.

Lemma select_length {A B} (mask : list bool) (l1 : list A) (l2 : list B) :
  length l1 = length l2 → length (select mask l1) = length (select mask l2).
Proof.
  revert l1 l2. induction mask as [|b mask IH]; intros [|x l1] [|y l2] Hlen;
    try done.
  injection Hlen as Hlen. cbn [select]. destruct b; cbn; auto.
Qed.

Lemma rows_length {A B} (lo hi : nat) (l1 : list A) (l2 : list B) :
  length l1 = length l2 → length (rows lo hi l1) = length (rows lo hi l2).
Proof. intros Hlen. unfold rows. rewrite !length_take, !length_drop. lia. Qed.

Lemma rows_lookup {A} (lo hi i : nat) (l : list A) x :
  rows lo hi l !! i = Some x → l !! (lo + i)%nat = Some x.
Proof.
  unfold rows. intros Hx. apply lookup_take_Some in Hx as [Hx _].
  by rewrite lookup_drop in Hx.
Qed.

Lemma loc_slice_aligned df since till p :
  aligned df → loc_slice df since till = Ok p → aligned p.
Proof.
  intros Hdf. unfold loc_slice.
  destruct (is_monotonic_increasing (df_index df)).
  - intros [= <-] c v. cbn. rewrite lookup_fmap.
    destruct (df_columns df !! c) as [v0|] eqn:Hc; [|done].
    intros [= <-]. apply rows_length. by apply (Hdf c).
  - destruct (existsb (ts_eqb since) (df_index df)
              && existsb (ts_eqb till) (df_index df)); [|done].
    intros [= <-] c v. cbn. rewrite lookup_fmap.
    destruct (df_columns df !! c) as [v0|] eqn:Hc; [|done].
    intros [= <-]. apply select_length. by apply (Hdf c).
Qed.

Lemma partition_aligned data y p :
  aligned data → partition data y = Ok p → aligned p.
Proof.
  intros Hdata. unfold partition.
  destruct (slice_bounds y) as [[since till]|]; [|done].
  by apply loc_slice_aligned.
Qed.

Lemma TechnicalIndicator_aligned data data' :
  aligned data → TechnicalIndicator data = Ok data' → aligned data'.
Proof.
  intros Hdata Hrun.
  apply TechnicalIndicator_inv in Hrun as (close & Hclose & ->).
  unfold aligned. cbn [df_index df_columns].
  apply with_ema_aligned; [by apply (Hdata "close")|exact Hdata].
Qed.

(** Once every listed year has its slice stored, the loop stores nothing
    new. *)
Lemma split_loop_stored data ys sd :
  (∀ y, y ∈ ys →
     ∃ p, partition data y = Ok p ∧ sd !! data_key (pretty y) = Some p) →
  split_loop data ys sd = Ok sd.
Proof.
  induction ys as [|y ys IH]; intros Hstored; [done|].
  rewrite split_loop_cons.
  destruct (Hstored y) as (p & -> & Hp); [by left|]. cbn.
  rewrite insert_id by done. apply IH. intros y' Hy'. apply Hstored. by right.
Qed.

End PartitionsMore.

(** X6.  When every column of the loaded table has one cell per row, so has every
    column of every stored partition, the [ema_w] among them. *)
Theorem startup_aligned (df : DataFrame) (sd : gmap string DataFrame) :
  aligned df →
  startup df = Ok sd →
  ∀ k p, sd !! k = Some p → aligned p.
Proof.
  intros Hdf Hrun k p Hk.
  apply startup_inv in Hrun as (df' & Hind & Hloop).
  destruct (split_loop_lookup _ _ _ _ _ Hloop Hk) as (y & _ & _ & Hp).
  eapply partition_aligned; [|exact Hp].
  by eapply TechnicalIndicator_aligned.
Qed.

Lemma startup_aligned_witness :
  ∃ sd,
    aligned sample_prices ∧
    startup sample_prices = Ok sd ∧
    ∀ k p, sd !! k = Some p → aligned p.
Proof.
  assert (aligned sample_prices) as Hal by (unfold aligned; by_evaluation).
  destruct sample_startup as [sd Hsd].
  exists sd. split; [exact Hal|]. split; [exact Hsd|].
  exact (startup_aligned sample_prices sd Hal Hsd).
Defined.

(** X7.  On a monotonic index a year's partition is a run of consecutive rows of
    the table: there is an offset [lo] such that row [i] of the partition
    is row [lo + i] of the table, label and every column alike. *)
Theorem partition_rows_intact (data : DataFrame) (y : Z) (p : DataFrame) :
  is_monotonic_increasing (df_index data) = true →
  partition data y = Ok p →
  ∃ lo : nat,
    (∀ (i : nat) t, df_index p !! i = Some t →
                    df_index data !! (lo + i)%nat = Some t) ∧
    (∀ c v (i : nat) x,
       df_columns p !! c = Some v → v !! i = Some x →
       ∃ v0, df_columns data !! c = Some v0 ∧ v0 !! (lo + i)%nat = Some x).
Proof.
  intros Hmono. unfold partition.
  destruct (slice_bounds y) as [[since till]|]; [|done]. cbn.
  unfold loc_slice. rewrite Hmono. intros [= <-].
  exists (searchsorted_left (df_index data) since). cbn. split.
  - intros i t. apply rows_lookup.
  - intros c v i x. rewrite lookup_fmap.
    destruct (df_columns data !! c) as [v0|]; [|done].
    intros [= <-] Hx. exists v0. split; [done|]. by eapply rows_lookup.
Qed.

Lemma partition_rows_intact_witness :
  ∃ p,
    is_monotonic_increasing (df_index sample_prices) = true ∧
    partition sample_prices 2021 = Ok p ∧
    ∃ lo : nat,
      (∀ (i : nat) t, df_index p !! i = Some t →
                      df_index sample_prices !! (lo + i)%nat = Some t) ∧
      (∀ c v (i : nat) x,
         df_columns p !! c = Some v → v !! i = Some x →
         ∃ v0, df_columns sample_prices !! c = Some v0 ∧
               v0 !! (lo + i)%nat = Some x).
Proof.
  eexists. split; [reflexivity|]. split; [reflexivity|].
  exact (partition_rows_intact sample_prices 2021 _ eq_refl eq_refl).
Defined.



(** X9.  The dictionary returned for an object fresh from [__init__] has one key
    [f'{year}_data'] per listed year and no other. *)
Theorem split_keys (data : DataFrame) (ys : list Z)
    (r : TimeSeriesSplit * gmap string DataFrame) :
  split_by_intervals (TimeSeriesSplit_init data ys) = Ok r →
  dom r.2 = list_to_set ((λ y : Z, data_key (pretty y)) <$> ys) ∧
  split_data r.1 = r.2.
Proof.
  unfold split_by_intervals, TimeSeriesSplit_init. cbn -[split_loop].
  destruct (split_loop data ys ∅) as [sd|] eqn:Hloop; [|done].
  intros [= <-]. cbn. split; [|done].
  destruct (split_loop_spec _ _ _ _ Hloop) as [Hstored _].
  apply set_eq. intros k. rewrite elem_of_dom, elem_of_list_to_set, list_elem_of_fmap.
  split.
  - intros [p Hp].
    destruct (split_loop_lookup _ _ _ _ _ Hloop Hp) as (y & Hy & -> & _).
    by exists y.
  - intros (y & -> & Hy). destruct (Hstored y Hy) as (p & _ & Hp). by exists p.
Qed.

Lemma split_keys_witness :
  ∃ r,
    split_by_intervals (TimeSeriesSplit_init sample_prices [2020; 2021]) = Ok r ∧
    dom r.2 = list_to_set ((λ y : Z, data_key (pretty y)) <$> [2020; 2021]) ∧
    split_data r.1 = r.2.
Proof.
  eexists. split; [reflexivity|].
  exact (split_keys sample_prices [2020; 2021] _ eq_refl).
Defined.

(** X10.  Splitting again is harmless: a second call on the same object returns
    the same dictionary and leaves the object as the first call left it. *)
Theorem split_twice (self : TimeSeriesSplit)
    (r : TimeSeriesSplit * gmap string DataFrame) :
  split_by_intervals self = Ok r →
  split_by_intervals r.1 = Ok r.
Proof.
  unfold split_by_intervals.
  destruct (split_loop (tss_data self) (tss_intervals self) (split_data self))
    as [sd|] eqn:Hloop; [|done].
  intros [= <-]. cbn [fst tss_data tss_intervals split_data].
  destruct (split_loop_spec _ _ _ _ Hloop) as [Hstored _].
  by rewrite (split_loop_stored _ _ _ Hstored).
Qed.

Lemma split_twice_witness :
  ∃ r,
    split_by_intervals (TimeSeriesSplit_init sample_prices [2020; 2021]) = Ok r ∧
    split_by_intervals r.1 = Ok r.
Proof.
  eexists. split; [reflexivity|].
  exact (split_twice (TimeSeriesSplit_init sample_prices [2020; 2021]) _ eq_refl).
Defined.

(** ** More on the query *)

Section QueryMore.

(** The whole of a returned figure. *)
Lemma display_candlestick_figure sd dark sel yr fig cls :
  display_candlestick sd dark sel yr = Ok (fig, cls) →
  ∃ year_data o h l c ts,
    sd !! data_key yr = Some year_data ∧
    df_columns year_data !! "open" = Some o ∧
    df_columns year_data !! "high" = Some h ∧
    df_columns year_data !! "low" = Some l ∧
    df_columns year_data !! "close" = Some c ∧
    add_traces year_data 0 (take 5 sel) [] = Ok ts ∧
    fig = mkFigure (mkCandlestick (df_index year_data) o h l c "Candlestick") ts
            (mkLayout (if bool_decide ("dark" ∈ dark) then "plotly_dark" else "plotly")
               false 800) ∧
    cls = if bool_decide ("dark" ∈ dark) then "dark-mode" else "light-mode".
Proof.
  unfold display_candlestick, getattr.
  destruct (sd !! data_key yr) as [yd|]; [|done]. cbn.
  destruct (df_columns yd !! "open") as [o|] eqn:Ho; [|done]. cbn.
  destruct (df_columns yd !! "high") as [h|] eqn:Hh; [|done]. cbn.
  destruct (df_columns yd !! "low") as [l|] eqn:Hl; [|done]. cbn.
  destruct (df_columns yd !! "close") as [c|] eqn:Hc; [|done]. cbn.
  destruct (add_traces yd 0 (take 5 sel) []) as [ts|] eqn:Hts; [|done]. cbn.
  intros Hret. exists yd, o, h, l, c, ts.
  destruct (bool_decide ("dark" ∈ dark)); injection Hret as <- <-;
    repeat split; assumption.
Qed.

Lemma add_traces_colors year_data cols : ∀ (i : nat) acc r,
  add_traces year_data i cols acc = Ok r →
  ∃ ts,
    r = acc ++ ts ∧ length ts = length cols ∧
    ∀ (j : nat) tr,
      ts !! j = Some tr →
      sc_color tr = color_palettes !!! ((i + j) mod length color_palettes)%nat.
Proof.
  induction cols as [|c cols IH]; intros i acc r.
  - cbn. intros [= <-]. exists []. by rewrite app_nil_r.
  - cbn [add_traces]. unfold getitem.
    destruct (df_columns year_data !! c) as [v|]; [|done]. cbn -[color_palettes].
    intros Hrun. apply IH in Hrun as (ts & -> & Hlen & Hcol).
    eexists (_ :: ts). split; [by rewrite <- app_assoc|].
    split; [cbn; by rewrite Hlen|].
    intros [|j] tr Htr.
    + injection Htr as <-. cbn [sc_color]. by rewrite Nat.add_0_r.
    + cbn in Htr. apply Hcol in Htr. rewrite Htr. do 2 f_equal. lia.
Qed.

(** The exception names the first requested column that is missing. *)
Lemma add_traces_first_missing year_data pre c post : ∀ (i : nat) acc,
  Forall (λ c', is_Some (df_columns year_data !! c')) pre →
  df_columns year_data !! c = None →
  add_traces year_data i (pre ++ c :: post) acc = Raise (KeyError c).
Proof.
  induction pre as [|c0 pre IH]; intros i acc Hpre Hc.
  - cbn. unfold getitem. by rewrite Hc.
  - apply Forall_cons in Hpre as [[v Hv] Hpre].
    cbn [app add_traces]. unfold getitem. rewrite Hv. cbn -[color_palettes].
    by apply IH.
Qed.

Lemma contains_ema_prefix s : contains "ema_" ("ema_" +:+ s) = true.
Proof. by destruct s. Qed.

Lemma is_indicator_col_ema w : is_indicator_column (col_ema w) = true.
Proof.
  unfold is_indicator_column, col_ema. by rewrite contains_ema_prefix.
Qed.

End QueryMore.

(** X11.  In a returned figure every series is plotted against the index of the
    year's partition, and when the stored partitions are aligned every
    series has one value per label of it. *)
Theorem figure_aligned (sd : gmap string DataFrame) (dark sel : list string)
    (yr : string) (fig : Figure) (cls : string) :
  (∀ k p, sd !! k = Some p → aligned p) →
  display_candlestick sd dark sel yr = Ok (fig, cls) →
  let candle := fig_candlestick fig in
  let n := length (c_x candle) in
  length (c_open candle) = n ∧ length (c_high candle) = n ∧
  length (c_low candle) = n ∧ length (c_close candle) = n ∧
  Forall (λ tr, sc_x tr = c_x candle ∧ length (sc_y tr) = n) (fig_traces fig).
Proof.
  intros Hal Hrun.
  pose proof (display_candlestick_inv _ _ _ _ _ _ Hrun) as (yd' & Hyd' & Hts).
  apply display_candlestick_figure in Hrun
    as (yd & o & h & l & c & ts & Hyd & Ho & Hh & Hl & Hc & _ & -> & _).
  assert (yd' = yd) as -> by congruence.
  pose proof (Hal _ _ Hyd) as Hyal. cbn.
  repeat split; [by eapply Hyal..|].
  cbn in Hts. clear -Hts Hyal.
  induction Hts as [|c tr cols ts (_ & Hx & Hy) _ IH]; constructor; [|done].
  split; [done|]. by eapply Hyal.
Qed.

Lemma figure_aligned_witness :
  ∃ sd fig cls,
    (∀ k p, sd !! k = Some p → aligned p) ∧
    display_candlestick sd [] seven_names "2021" = Ok (fig, cls) ∧
    length (c_close (fig_candlestick fig)) = length (c_x (fig_candlestick fig)) ∧
    Forall (λ tr, sc_x tr = c_x (fig_candlestick fig) ∧
                  length (sc_y tr) = length (c_x (fig_candlestick fig)))
      (fig_traces fig).
Proof.
  destruct sample_startup as [sd Hsd].
  assert (∀ k p, sd !! k = Some p → aligned p) as Hal.
  { intros k p Hk.
    apply startup_inv in Hsd as (df' & Hind & Hloop).
    destruct (split_loop_lookup _ _ _ _ _ Hloop Hk) as (y & _ & _ & Hp).
    eapply partition_aligned; [|exact Hp].
    eapply TechnicalIndicator_aligned; [|exact Hind].
    unfold aligned. by_evaluation. }
  destruct (startup_query_runs sample_prices sd [] seven_names 2021 Hsd)
    as (yd & fig & cls & _ & Hrun).
  - by_evaluation.
  - apply sample_query_columns. rewrite ema_names. by_evaluation.
  - change (pretty 2021) with "2021" in Hrun.
    exists sd, fig, cls. split; [exact Hal|]. split; [exact Hrun|].
    pose proof (figure_aligned sd [] seven_names "2021" fig cls Hal Hrun)
      as (_ & _ & _ & Hclose & Htraces).
    split; [exact Hclose|exact Htraces].
Defined.

(** X12.  The traces of a returned figure take the colours of the palette in order,
    one colour each: with at most five traces no colour is used twice. *)
Theorem trace_colours (sd : gmap string DataFrame) (dark sel : list string)
    (yr : string) (fig : Figure) (cls : string) :
  display_candlestick sd dark sel yr = Ok (fig, cls) →
  sc_color <$> fig_traces fig = take (length (fig_traces fig)) color_palettes ∧
  NoDup (sc_color <$> fig_traces fig).
Proof.
  intros Hrun.
  apply display_candlestick_figure in Hrun
    as (yd & o & h & l & c & ts & _ & _ & _ & _ & _ & Hts & -> & _).
  cbn [fig_traces].
  apply add_traces_colors in Hts as (ts' & Heq & Hlen & Hcol).
  cbn in Heq. subst ts'.
  assert (length ts ≤ 5)%nat as Hfive.
  { rewrite Hlen, length_take. lia. }
  assert (sc_color <$> ts = take (length ts) color_palettes) as Hcolors.
  { apply list_eq. intros j. rewrite list_lookup_fmap.
    destruct (ts !! j) as [tr|] eqn:Htr; cbn.
    - pose proof (lookup_lt_Some _ _ _ Htr) as Hj.
      rewrite (Hcol j tr Htr), lookup_take_lt by done.
      cbn [Nat.add]. rewrite Nat.mod_small by (cbn; lia).
      symmetry. apply list_lookup_lookup_total_lt. cbn. lia.
    - symmetry. apply lookup_ge_None. apply lookup_ge_None in Htr.
      rewrite length_take. lia. }
  split; [exact Hcolors|]. rewrite Hcolors.
  eapply sublist_NoDup; [|apply sublist_take]. by_evaluation.
Qed.

Lemma trace_colours_witness :
  ∃ sd fig cls,
    display_candlestick sd [] seven_names "2020" = Ok (fig, cls) ∧
    sc_color <$> fig_traces fig = take (length (fig_traces fig)) color_palettes ∧
    NoDup (sc_color <$> fig_traces fig).
Proof.
  destruct sample_startup as [sd Hsd].
  destruct (startup_query_runs sample_prices sd [] seven_names 2020 Hsd)
    as (yd & fig & cls & _ & Hrun).
  - by_evaluation.
  - apply sample_query_columns. rewrite ema_names. by_evaluation.
  - change (pretty 2020) with "2020" in Hrun.
    exists sd, fig, cls. split; [exact Hrun|].
    exact (trace_colours sd [] seven_names "2020" fig cls Hrun).
Defined.

(** X13.  The dark-mode switch changes the template and the page class and nothing
    else: the class is ['dark-mode'] exactly when ['dark'] is ticked, and
    with any other setting of the switch the same request draws the same
    candlestick and the same traces. *)
Theorem dark_mode_only_restyles (sd : gmap string DataFrame)
    (dark dark' sel : list string) (yr : string) (fig : Figure) (cls : string) :
  display_candlestick sd dark sel yr = Ok (fig, cls) →
  (cls = "dark-mode" ∧ template (fig_layout fig) = "plotly_dark" ∧ "dark" ∈ dark
   ∨ cls = "light-mode" ∧ template (fig_layout fig) = "plotly" ∧ "dark" ∉ dark) ∧
  height (fig_layout fig) = 800 ∧
  xaxis_rangeslider_visible (fig_layout fig) = false ∧
  ∃ fig' cls',
    display_candlestick sd dark' sel yr = Ok (fig', cls') ∧
    fig_candlestick fig' = fig_candlestick fig ∧
    fig_traces fig' = fig_traces fig.
Proof.
  intros Hrun.
  pose proof (display_candlestick_figure _ _ _ _ _ _ Hrun)
    as (yd & o & h & l & c & ts & Hyd & Ho & Hh & Hl & Hc & Hts & -> & ->).
  cbn [fig_layout fig_candlestick fig_traces template height
       xaxis_rangeslider_visible].
  split; [|split; [done|split; [done|]]].
  - destruct (bool_decide ("dark" ∈ dark)) eqn:Hd.
    + left. by apply bool_decide_eq_true in Hd.
    + right. by apply bool_decide_eq_false in Hd.
  - unfold display_candlestick, getattr.
    rewrite Hyd. cbn. rewrite Ho, Hh, Hl, Hc. cbn. rewrite Hts. cbn.
    destruct (bool_decide ("dark" ∈ dark')); by eexists _, _.
Qed.

Lemma dark_mode_only_restyles_witness :
  ∃ sd fig cls fig' cls',
    display_candlestick sd ["dark"] ["ema_9"] "2020" = Ok (fig, cls) ∧
    cls = "dark-mode" ∧
    display_candlestick sd [] ["ema_9"] "2020" = Ok (fig', cls') ∧
    fig_candlestick fig' = fig_candlestick fig ∧
    fig_traces fig' = fig_traces fig.
Proof.
  destruct sample_startup as [sd Hsd].
  destruct (startup_query_runs sample_prices sd ["dark"] ["ema_9"] 2020 Hsd)
    as (yd & fig & cls & _ & Hrun).
  - by_evaluation.
  - apply sample_query_columns. rewrite ema_names. by_evaluation.
  - change (pretty 2020) with "2020" in Hrun.
    destruct (dark_mode_only_restyles sd ["dark"] [] ["ema_9"] "2020" fig cls Hrun)
      as (Hcls & _ & _ & fig' & cls' & Hrun' & Hcandle & Htraces).
    exists sd, fig, cls, fig', cls'.
    split; [exact Hrun|]. split.
    { destruct Hcls as [(Hc & _)|(_ & _ & Hno)]; [exact Hc|].
      exfalso. apply Hno. by_evaluation. }
    split; [exact Hrun'|]. by split.
Defined.

(** X14.  When the year is stored with its price columns, the query fails on the
    first of the first five requested names that is not a column, with a
    [KeyError] naming it. *)
Theorem first_missing_column_named (sd : gmap string DataFrame)
    (dark sel : list string) (yr : string) (year_data : DataFrame)
    (pre post : list string) (c : string) :
  sd !! data_key yr = Some year_data →
  Forall (λ c', is_Some (df_columns year_data !! c'))
    (["open"; "high"; "low"; "close"] ++ pre) →
  take 5 sel = pre ++ c :: post →
  df_columns year_data !! c = None →
  display_candlestick sd dark sel yr = Raise (KeyError c).
Proof.
  intros Hyr Hcols Hsel Hc.
  apply Forall_app in Hcols as [Hprice Hpre].
  apply Forall_cons in Hprice as [[o Ho] Hprice].
  apply Forall_cons in Hprice as [[h Hh] Hprice].
  apply Forall_cons in Hprice as [[l Hl] Hprice].
  apply Forall_cons in Hprice as [[cl Hcl] _].
  unfold display_candlestick, getattr. rewrite Hyr. cbn.
  rewrite Ho, Hh, Hl, Hcl. cbn.
  by rewrite Hsel, (add_traces_first_missing year_data pre c post 0 [] Hpre Hc).
Qed.

Lemma first_missing_column_named_witness :
  ∃ sd,
    startup sample_prices = Ok sd ∧
    display_candlestick sd [] ["ema_9"; "sma_5"; "ema_12"] "2020"
    = Raise (KeyError "sma_5").
Proof.
  destruct sample_startup as [sd Hsd].
  destruct (startup_stored sample_prices sd 2020 Hsd) as [yd Hyd];
    [by_evaluation|].
  change (pretty 2020) with "2020" in Hyd.
  destruct (startup_lookup _ _ _ _ Hsd Hyd) as [_ Hdom].
  exists sd. split; [exact Hsd|].
  apply (first_missing_column_named sd [] _ "2020" yd ["ema_9"] ["ema_12"] "sma_5" Hyd).
  - apply Forall_forall. intros c Hc. apply elem_of_dom.
    rewrite Hdom, sample_columns, ema_names.
    revert c Hc. apply Forall_forall. by_evaluation.
  - reflexivity.
  - apply not_elem_of_dom. rewrite Hdom, sample_columns, ema_names. by_evaluation.
Defined.

(** ** The page's option lists and the query *)

(** X15.  Of the table the indicators were built on, the checklist offers every
    [ema_w] and none of the four price columns; it offers column labels
    only, in the order of the table. *)
Theorem checklist_offers_ema (data data' : DataFrame) (columns : list string) :
  TechnicalIndicator data = Ok data' →
  (∀ c, c ∈ columns ↔ c ∈ dom (df_columns data')) →
  (∀ w, w ∈ intervals → col_ema w ∈ indicator_columns columns) ∧
  (∀ c, c ∈ ["open"; "high"; "low"; "close"] → c ∉ indicator_columns columns) ∧
  indicator_columns columns `sublist_of` columns.
Proof.
  intros Hrun Hcols.
  apply TechnicalIndicator_inv in Hrun as (close & Hclose & ->).
  cbn [df_columns] in Hcols. unfold indicator_columns.
  split; [|split].
  - intros w Hw. apply list_elem_of_filter. split; [apply is_indicator_col_ema|].
    apply Hcols, elem_of_dom. rewrite with_ema_lookup by done. by eexists.
  - intros c Hc Hin. apply list_elem_of_filter in Hin as [Hind _].
    repeat (apply elem_of_cons in Hc as [->|Hc]; [by vm_compute in Hind|]).
    by apply elem_of_nil in Hc.
  - apply sublist_filter.
Qed.

Lemma checklist_offers_ema_witness :
  ∃ data' columns,
    TechnicalIndicator sample_prices = Ok data' ∧
    (∀ c, c ∈ columns ↔ c ∈ dom (df_columns data')) ∧
    (∀ w, w ∈ intervals → col_ema w ∈ indicator_columns columns) ∧
    (∀ c, c ∈ ["open"; "high"; "low"; "close"] → c ∉ indicator_columns columns) ∧
    indicator_columns columns `sublist_of` columns.
Proof.
  pose proof (init_loop_run intervals sample_prices _ eq_refl intervals_positive)
    as Hrun.
  eexists _, (elements (dom _)). split; [exact Hrun|].
  split; [intros c; apply elem_of_elements|].
  exact (checklist_offers_ema sample_prices _ _ Hrun
           (λ c, elem_of_elements _ c)).
Defined.

(** X16.  Every request the page can send is served: for a loaded table with the
    four price columns, a year from the dropdown and any selection from the
    checklist give a figure, never an exception. *)
Theorem page_requests_succeed (df df' : DataFrame) (sd : gmap string DataFrame)
    (columns dark sel : list string) (yr : string) :
  TechnicalIndicator df = Ok df' →
  startup df = Ok sd →
  (∀ c, c ∈ columns → c ∈ dom (df_columns df')) →
  Forall (λ c, c ∈ dom (df_columns df)) ["open"; "high"; "low"; "close"] →
  yr ∈ year_options →
  Forall (λ c, c ∈ indicator_columns columns) sel →
  ∃ fig cls, display_candlestick sd dark sel yr = Ok (fig, cls).
Proof.
  intros Hind Hrun Hcols Hprice Hyr Hsel.
  apply list_elem_of_fmap in Hyr as (y & -> & Hy).
  apply TechnicalIndicator_inv in Hind as (close & Hclose & ->).
  cbn [df_columns] in Hcols. rewrite with_ema_dom in Hcols.
  destruct (startup_query_runs df sd dark sel y Hrun Hy)
    as (yd & fig & cls & _ & Hfig); [|by exists fig, cls].
  apply Forall_app. split.
  - eapply Forall_impl; [exact Hprice|]. intros c Hc. by left.
  - apply Forall_take. eapply Forall_impl; [exact Hsel|].
    intros c Hc. unfold indicator_columns in Hc.
    apply list_elem_of_filter in Hc as [_ Hc]. apply Hcols in Hc.
    apply elem_of_union in Hc as [Hc|Hc]; [by left|right].
    by apply elem_of_list_to_set in Hc.
Qed.

Lemma page_requests_succeed_witness :
  ∃ df' sd columns fig cls,
    TechnicalIndicator sample_prices = Ok df' ∧
    startup sample_prices = Ok sd ∧
    (∀ c, c ∈ columns → c ∈ dom (df_columns df')) ∧
    "2017" ∈ year_options ∧
    Forall (λ c, c ∈ indicator_columns columns) ["ema_200"; "ema_9"] ∧
    display_candlestick sd [] ["ema_200"; "ema_9"] "2017" = Ok (fig, cls).
Proof.
  pose proof (init_loop_run intervals sample_prices _ eq_refl intervals_positive)
    as Hind.
  destruct sample_startup as [sd Hsd].
  assert ("2017" ∈ year_options) as Hyr by by_evaluation.
  assert (Forall (λ c, c ∈ indicator_columns
                         (elements (dom (with_ema [11; 12; 13; 14]%float
                                           (df_columns sample_prices) intervals))))
            ["ema_200"; "ema_9"]) as Hsel.
  { apply Forall_forall. intros c Hc. unfold indicator_columns.
    apply list_elem_of_filter. split.
    - revert c Hc. apply Forall_forall. by_evaluation.
    - apply elem_of_elements. rewrite with_ema_dom, sample_columns, ema_names.
      revert c Hc. apply Forall_forall. by_evaluation. }
  destruct (page_requests_succeed sample_prices _ sd _ [] ["ema_200"; "ema_9"]
              "2017" Hind Hsd (λ c, proj1 (elem_of_elements _ c)))
    as (fig & cls & Hfig); [|exact Hyr|exact Hsel|].
  - rewrite sample_columns. by_evaluation.
  - eexists _, sd, _, fig, cls.
    split; [exact Hind|]. split; [exact Hsd|].
    split; [exact (λ c, proj1 (elem_of_elements _ c))|].
    split; [exact Hyr|]. split; [exact Hsel|exact Hfig].
Defined.

(** X17.  A price column the year's partition lacks ends the query with an
    [AttributeError] naming the first one missing, in the order open, high,
    low, close, before any indicator is looked up. *)
Theorem missing_price_column (sd : gmap string DataFrame)
    (dark sel : list string) (yr : string) (year_data : DataFrame)
    (pre post : list string) (c : string) :
  sd !! data_key yr = Some year_data →
  ["open"; "high"; "low"; "close"] = pre ++ c :: post →
  Forall (λ c', is_Some (df_columns year_data !! c')) pre →
  df_columns year_data !! c = None →
  display_candlestick sd dark sel yr = Raise (AttributeError c).
Proof.
  intros Hyr Hsplit Hpre Hc.
  unfold display_candlestick, getattr. rewrite Hyr. cbn.
  destruct pre as [|c1 pre]; [injection Hsplit as <- _; by rewrite Hc|].
  injection Hsplit as <- Hsplit.
  apply Forall_cons in Hpre as [[v1 ->] Hpre]. cbn.
  destruct pre as [|c2 pre]; [injection Hsplit as <- _; by rewrite Hc|].
  injection Hsplit as <- Hsplit.
  apply Forall_cons in Hpre as [[v2 ->] Hpre]. cbn.
  destruct pre as [|c3 pre]; [injection Hsplit as <- _; by rewrite Hc|].
  injection Hsplit as <- Hsplit.
  apply Forall_cons in Hpre as [[v3 ->] Hpre]. cbn.
  destruct pre as [|c4 pre]; [injection Hsplit as <- _; by rewrite Hc|].
  injection Hsplit as <- Hsplit. by destruct pre.
Qed.

Lemma missing_price_column_witness :
  ∃ sd,
    startup close_only = Ok sd ∧
    display_candlestick sd [] [] "2020" = Raise (AttributeError "open").
Proof.
  destruct (startup_run close_only [11; 12; 13; 14]%float eq_refl eq_refl)
    as [sd Hsd].
  destruct (startup_stored close_only sd 2020 Hsd) as [yd Hyd];
    [by_evaluation|].
  change (pretty 2020) with "2020" in Hyd.
  destruct (startup_lookup _ _ _ _ Hsd Hyd) as [_ Hdom].
  exists sd. split; [exact Hsd|].
  apply (missing_price_column sd [] [] "2020" yd [] ["high"; "low"; "close"]
           "open" Hyd eq_refl).
  - constructor.
  - apply not_elem_of_dom. rewrite Hdom, ema_names.
    cbn. rewrite dom_insert_L. by_evaluation.
Defined.

